(** * Open Horizon MCP server: resource client, action dispatcher,
      session registry and request router

    A shallow embedding of
    - [services/common] ([getErrorMessage], [makeHttpRequest]),
    - [tools/tool-exchange] (class [ToolExchange]),
    - the HTTP server module (the [sessions] table, the routes of the Express
      application and [handleSessionRequest]),
    together with the properties stated about them.

    Logging ([console.log], [log4js]) has no influence on any result and is
    left out. *)

From Stdlib Require Import ZArith String Ascii List Bool Lia.
From stdpp Require Import base option list gmap strings pretty.
Import ListNotations.
Local Open Scope string_scope.
Local Open Scope Z_scope.
Set Warnings "-register-all".

(** ** JavaScript values *)

(** The values the program handles: JSON data, [undefined], and instances of
    [Error] (the only objects the code tests with [instanceof]).  An object is
    its list of own properties, in insertion order.  Numbers are only ever
    copied or printed here, never computed with; integers stand for them. *)
Inductive JsVal : Type :=
| JUndefined
| JNull
| JBool (b : bool)
| JNum (n : Z)
| JStr (s : string)
| JArr (items : list JsVal)
| JObj (props : list (string * JsVal))
| JErr (message : string).

Module Js.

(** [!!v] *)
Definition truthy (v : JsVal) : bool :=
  match v with
  | JUndefined | JNull => false
  | JBool b => b
  | JNum n => negb (n =? 0)
  | JStr s => negb (s =? "")%string
  | JArr _ | JObj _ | JErr _ => true
  end.

(** [typeof v === 'object'] *)
Definition typeof_object (v : JsVal) : bool :=
  match v with
  | JNull | JArr _ | JObj _ | JErr _ => true
  | _ => false
  end.

(** [v instanceof Error] *)
Definition instanceof_Error (v : JsVal) : bool :=
  match v with JErr _ => true | _ => false end.

Definition get (k : string) (props : list (string * JsVal)) : option JsVal :=
  snd <$> find (fun p => (fst p =? k)%string) props.

(** [k in v], for a key [k] that is neither an array index, nor [length],
    nor a member of [Object.prototype] or [Error.prototype]; ["content"] is
    such a key. *)
Definition has_key (k : string) (v : JsVal) : bool :=
  match v with
  | JObj props => bool_decide (is_Some (get k props))
  | _ => false
  end.

(** A string, or [undefined], as it is spliced into a template literal. *)
Definition tpl (s : option string) : string :=
  match s with Some s => s | None => "undefined" end.

(** [!s] for [s : string | undefined] *)
Definition absent (s : option string) : bool :=
  match s with Some s => (s =? "")%string | None => true end.

(** [s === lit] for [s : string | undefined] *)
Definition equals (s : option string) (lit : string) : bool :=
  match s with Some s => (s =? lit)%string | None => false end.

(** [haystack.includes(needle)] *)
Fixpoint includes (needle haystack : string) : bool :=
  String.prefix needle haystack
  || match haystack with
     | EmptyString => false
     | String _ rest => includes needle rest
     end.

End Js.

(** ** The response envelope ([models/model]) *)

(** [{ type: "text", text }] *)
Definition MCPTextContent (text : string) : JsVal :=
  JObj [("type", JStr "text"); ("text", JStr text)].

(** [{ content: [{ type: "text", text }] }] *)
Definition textResponse (text : string) : JsVal :=
  JObj [("content", JArr [MCPTextContent text])].

(** [ToolContent]: an object whose [type] is ["text"] or ["json"]. *)
Definition isToolContent (v : JsVal) : bool :=
  match v with
  | JObj props =>
      match Js.get "type" props with
      | Some (JStr t) => (t =? "text")%string || (t =? "json")%string
      | _ => false
      end
  | _ => false
  end.

(** [ToolResponse]: an object with a [content] array of [ToolContent]. *)
Definition isToolResponse (v : JsVal) : bool :=
  match v with
  | JObj props =>
      match Js.get "content" props with
      | Some (JArr items) => forallb isToolContent items
      | _ => false
      end
  | _ => false
  end.

(** The text of the first content item of an envelope. *)
Definition envelopeText (v : JsVal) : option string :=
  match v with
  | JObj props =>
      match Js.get "content" props with
      | Some (JArr (JObj item :: _)) =>
          match Js.get "text" item with
          | Some (JStr t) => Some t
          | _ => None
          end
      | _ => None
      end
  | _ => None
  end.

(** ** The host: network and configuration *)

Inductive JsonOutcome : Type :=
| JsonParsed (body : JsVal)
| JsonRejected (message : string).

(** What the code reads of a fetch [Response]. *)
Record Response : Type := mkResponse {
  status : Z;
  statusText : string;
  json : JsonOutcome
}.

(** [response.ok]: the status is in the range 200-299. *)
Definition ok (r : Response) : bool := (200 <=? status r) && (status r <=? 299).

Inductive FetchOutcome : Type :=
| FetchResolved (r : Response)
| FetchRejected (message : string).

Definition Headers : Type := list (string * string).

(** What the process is given: the environment variables, [fetch], and
    [JSON.stringify(_, null, 2)]. *)
Record Env : Type := mkEnv {
  EXCHANGE_URL : option string;
  ORG : option string;
  EXCHANGE_CREDENTIAL : option string;
  fetch : string -> Headers -> FetchOutcome;
  JSON_stringify : JsVal -> string
}.

(** ** Asynchronous computations *)

Record HttpCall : Type := mkCall { call_url : string; call_headers : Headers }.

(** A settled promise.  Every exception of this program is an instance of
    [Error] (the [throw new Error] of [listResources], the [TypeError] of a
    failed [fetch], the [SyntaxError] of [Response.json]); [Thrown m] is a
    rejection with an [Error] whose message is [m]. *)
Inductive Completion (A : Type) : Type :=
| Returned (a : A)
| Thrown (message : string).
Arguments Returned {A} a.
Arguments Thrown {A} message.

(** An [async] function: it extends the trace of the network calls made so
    far and settles. *)
Definition Async (A : Type) : Type := list HttpCall -> Completion A * list HttpCall.

Definition throw {A} (message : string) : Async A := fun calls => (Thrown message, calls).
Definition try_catch {A} (body : Async A) (handler : string -> Async A) : Async A :=
  fun calls =>
    match body calls with
    | (Returned a, calls') => (Returned a, calls')
    | (Thrown e, calls') => handler e calls'
    end.

(** [return a] and [const x = await m; k x], in stdpp's monad notation
    ([x ← m; k]). *)
#[export] Instance Async_ret : MRet Async :=
  fun A (a : A) calls => (Returned a, calls).
#[export] Instance Async_bind : MBind Async :=
  fun A B (k : A -> Async B) (m : Async A) calls =>
    match m calls with
    | (Returned a, calls') => k a calls'
    | (Thrown e, calls') => (Thrown e, calls')
    end.

(** Running from an empty trace. *)
Definition run {A} (m : Async A) : Completion A * list HttpCall := m [].
Definition result {A} (m : Async A) : Completion A := fst (run m).
Definition calls_of {A} (m : Async A) : list HttpCall := snd (run m).

(** ** Resource client ([services/common]) *)

Definition getErrorMessage (err : JsVal) : JsVal :=
  match err with
  | JErr message => textResponse ("Error fetching data: " +:+ message)
  | _ => textResponse "An unknown error occurred."
  end.

(** [{ ...a, ...b }] on string-valued objects, as the set of headers
    [fetch] makes of it: the order of the pairs is not significant. *)
Definition spread (a b : Headers) : Headers :=
  (List.filter (fun p => negb (existsb (fun q => (fst q =? fst p)%string) b)) a ++ b)%list.

Section ResourceClient.
Variable env : Env.

(** [await fetch(url, { headers })] *)
Definition await_fetch (url : string) (headers : Headers) : Async Response :=
  fun calls =>
    let calls' := (calls ++ [mkCall url headers])%list in
    match fetch env url headers with
    | FetchResolved r => (Returned r, calls')
    | FetchRejected message => (Thrown message, calls')
    end.

(** [await response.json()] *)
Definition await_json (r : Response) : Async JsVal :=
  match json r with
  | JsonParsed body => mret body
  | JsonRejected message => throw message
  end.

(** [err.message || "Unknown error"] *)
Definition message_or (message fallback : string) : string :=
  if (message =? "")%string then fallback else message.

Definition makeHttpRequest (url : string) (headers : Headers) : Async JsVal :=
  let finalHeaders := spread [("Accept", "application/json")] headers in
  try_catch
    (response ← await_fetch url finalHeaders;
     if negb (ok response) then
       mret (getErrorMessage
              (JStr ("Error fetching data: " +:+ pretty (status response)
                     +:+ " " +:+ statusText response)))
     else await_json response)
    (fun message =>
       mret (getErrorMessage
              (JStr ("Error fetching data: " +:+ message_or message "Unknown error")))).

End ResourceClient.

(** ** Action dispatcher ([tools/tool-exchange], class [ToolExchange]) *)

(** The arguments of a tool call, as [toolCallback] destructures them.
    [name] and [policyType] are strings or [undefined]; [data] is any value. *)
Record Params : Type := mkParams {
  action : string;
  target : string;
  name : option string;
  policyType : option string;
  data : JsVal
}.

Section ToolExchange.
Variable env : Env.

(** [`${EXCHANGE_URL}/${ORG}`], the prefix of every endpoint *)
Definition orgUrl : string :=
  Js.tpl (EXCHANGE_URL env) +:+ "/" +:+ Js.tpl (ORG env).

(** [{Authorization: `Basic ${process.env.EXCHANGE_CREDENTIAL}`}] *)
Definition authorization : Headers :=
  [("Authorization", "Basic " +:+ Js.tpl (EXCHANGE_CREDENTIAL env))].

(** [['service', 'node', 'policy'].includes(target)] *)
Definition knownTarget (target : string) : bool :=
  existsb (String.eqb target) ["service"; "node"; "policy"].

(** The tail shared by both branches of [listResources]: a reply that has a
    [content] property is returned as it is, any other is serialized into
    a text envelope. *)
Definition wrapListResponse (response : JsVal) : JsVal :=
  if Js.truthy response && Js.typeof_object response && Js.has_key "content" response
  then response
  else textResponse (JSON_stringify env response).

Definition listResources (target : string) (name policyType : option string)
  : Async JsVal :=
  if negb (knownTarget target) then
    throw ("Invalid target type: " +:+ target
           +:+ ". Must be one of 'service', 'node', or 'policy'.")
  else
    try_catch
      (if (target =? "policy")%string then
         if Js.equals policyType "node" then
           if Js.absent name then
             mret (textResponse ("Details for " +:+ target +:+ " named " +:+ Js.tpl name))
           else
             response ← makeHttpRequest env
               (orgUrl +:+ "/business/policies/nodes/" +:+ Js.tpl name +:+ "/policy")
               authorization;
             mret (wrapListResponse response)
         else
           response ← makeHttpRequest env (orgUrl +:+ "/business/policies") authorization;
           mret (wrapListResponse response)
       else
         let exchangeUrl :=
           if (target =? "policy")%string then orgUrl +:+ "/business/policies"
           else orgUrl +:+ "/" +:+ target +:+ "s" in
         response ← makeHttpRequest env exchangeUrl authorization;
         mret (wrapListResponse response))
      (fun message => mret (getErrorMessage (JErr message))).

(** The reassignment at the head of [getResourceDetails]:
    [if (policyType && target !== 'policy') target = 'policy']. *)
Definition overrideTarget (policyType : option string) (target : string) : string :=
  if negb (Js.absent policyType) && negb (target =? "policy")%string
  then "policy" else target.

(** The [return] after the [try] statement of the source is unreachable:
    every branch of the [try] block returns. *)
Definition getResourceDetails (target : string) (name policyType : option string)
  : Async JsVal :=
  try_catch
    (let target := overrideTarget policyType target in
     if (target =? "policy")%string then
       if Js.equals policyType "node" then
         if Js.absent name then
           mret (textResponse ("Details for " +:+ target +:+ " named " +:+ Js.tpl name))
         else
           makeHttpRequest env (orgUrl +:+ "/nodes/" +:+ Js.tpl name +:+ "/policy")
             authorization
       else if Js.equals policyType "service" then
         if Js.absent name then
           mret (textResponse ("Details for " +:+ Js.tpl policyType +:+ " " +:+ target
                               +:+ " name is required"))
         else
           makeHttpRequest env (orgUrl +:+ "/business/policies/" +:+ Js.tpl name)
             authorization
       else if Js.equals policyType "deployment" then
         if Js.absent name then
           mret (textResponse ("Details for " +:+ Js.tpl policyType +:+ " " +:+ target
                               +:+ " name is required"))
         else
           makeHttpRequest env (orgUrl +:+ "/services/" +:+ Js.tpl name +:+ "/policy")
             authorization
       else
         makeHttpRequest env (orgUrl +:+ "/business/policies") authorization
     else if (target =? "service")%string then
       if Js.absent name then
         mret (textResponse ("Details for " +:+ target +:+ " named " +:+ Js.tpl name))
       else
         makeHttpRequest env (orgUrl +:+ "/services/" +:+ Js.tpl name) authorization
     else if (target =? "node")%string then
       makeHttpRequest env (orgUrl +:+ "/node-details") authorization
     else
       let exchangeUrl :=
         if (target =? "policy")%string then orgUrl +:+ "/business/policies"
         else orgUrl +:+ "/" +:+ target +:+ "s" in
       makeHttpRequest env exchangeUrl authorization)
    (fun message => mret (getErrorMessage (JErr message))).

Definition createResource (target : string) (data : JsVal) : Async JsVal :=
  mret (textResponse ("Created " +:+ target +:+ " with provided data")).

Definition deleteResource (target : string) (name : option string) : Async JsVal :=
  mret (textResponse ("Deleted " +:+ target +:+ " named " +:+ Js.tpl name)).

Definition getResourceStatus (target : string) (name : option string) : Async JsVal :=
  if (target =? "node")%string then
    makeHttpRequest env (orgUrl +:+ "/nodes/" +:+ Js.tpl name +:+ "/status") authorization
  else
    mret (textResponse ("Status for " +:+ target +:+ " named " +:+ Js.tpl name)).

Definition toolCallback (params : Params) : Async JsVal :=
  let '(mkParams action target name policyType data) := params in
  if (action =? "list")%string then
    listResources target name policyType
  else if (action =? "details")%string then
    if Js.absent name then mret (getErrorMessage (JStr "Name is required for details action"))
    else getResourceDetails target name policyType
  else if (action =? "create")%string then
    if negb (Js.truthy data) then mret (getErrorMessage (JStr "Data is required for create action"))
    else createResource target data
  else if (action =? "delete")%string then
    if Js.absent name then mret (getErrorMessage (JStr "Name is required for delete action"))
    else deleteResource target name
  else if (action =? "status")%string then
    if Js.absent name then mret (getErrorMessage (JStr "Name is required for status action"))
    else getResourceStatus target name
  else
    mret (getErrorMessage (JStr ("Unknown action: " +:+ action))).

(** *** The endpoints of the [list] action *)

(** The headers [makeHttpRequest] sends for the dispatcher. *)
Definition requestHeaders : Headers :=
  spread [("Accept", "application/json")] authorization.

Definition policyCollection : string := orgUrl +:+ "/business/policies".
Definition nodePolicyLookup (name : string) : string :=
  orgUrl +:+ "/business/policies/nodes/" +:+ name +:+ "/policy".
Definition pluralCollection (target : string) : string :=
  orgUrl +:+ "/" +:+ target +:+ "s".

(** The endpoint [listResources] requests, when it requests one. *)
Definition listEndpoint (target : string) (name policyType : option string) : string :=
  if (target =? "policy")%string then
    if Js.equals policyType "node" then nodePolicyLookup (Js.tpl name)
    else policyCollection
  else pluralCollection target.

End ToolExchange.

(** Replacing the target of a request. *)
Definition withTarget (t : string) (p : Params) : Params :=
  mkParams (action p) t (name p) (policyType p) (data p).

(** ** The parameter schema of the tool ([toolParamsSchema]) *)

(** The zod combinators the schema is written with: a schema either
    accepts a value, giving the parsed value, or rejects it. *)
Module z.

(** [z.enum(options)]: one of the listed strings. *)
Definition enum (options : list string) (v : JsVal) : option string :=
  match v with
  | JStr s => if existsb (String.eqb s) options then Some s else None
  | _ => None
  end.

(** [z.string()] *)
Definition string (v : JsVal) : option String.string :=
  match v with JStr s => Some s | _ => None end.

(** [z.any()] *)
Definition any (v : JsVal) : option JsVal := Some v.

(** [schema.optional()]: [undefined] is accepted as it is. *)
Definition optional {A} (schema : JsVal -> option A) (v : JsVal) : option (option A) :=
  match v with
  | JUndefined => Some None
  | _ => Some <$> schema v
  end.

(** [z.preprocess(f, schema)] *)
Definition preprocess {A} (f : JsVal -> JsVal) (schema : JsVal -> option A)
           (v : JsVal) : option A :=
  schema (f v).

End z.

(** [args[k]]: the value of a property, [undefined] when there is none. *)
Definition property (k : string) (props : list (string * JsVal)) : JsVal :=
  default JUndefined (Js.get k props).

(** [(val) => (val === null || val === '' ? undefined : val)] *)
Definition blankToUndefined (val : JsVal) : JsVal :=
  match val with
  | JNull => JUndefined
  | JStr s => if (s =? "")%string then JUndefined else val
  | _ => val
  end.

(** The arguments of a call checked against [toolParamsSchema], field by
    field; [data] is optional and may be anything, so an absent [data] is
    [undefined]. *)
Definition toolParamsSchema (args : JsVal) : option Params :=
  match args with
  | JObj props =>
      action ← z.enum ["list"; "details"; "create"; "delete"; "status"]
                      (property "action" props);
      target ← z.enum ["service"; "node"; "policy"] (property "target" props);
      policyType ← z.preprocess blankToUndefined
                      (z.optional (z.enum ["node"; "service"; "deployment"]))
                      (property "policyType" props);
      name ← z.optional z.string (property "name" props);
      data ← z.optional z.any (property "data" props);
      Some (mkParams action target name policyType (default JUndefined data))
  | _ => None
  end.

(** ** Example hosts *)

Module Examples.

(** A stand-in for [JSON.stringify]: the examples below do not depend on
    the text it produces. *)
Definition stringify (v : JsVal) : string :=
  match v with
  | JStr s => s
  | JNum n => pretty n
  | JNull => "null"
  | JBool true => "true"
  | JBool false => "false"
  | JArr [] => "[]"
  | JObj [] => "{}"
  | _ => "[json]"
  end.

Definition host (fetch : string -> Headers -> FetchOutcome) : Env :=
  mkEnv (Some "https://hub.example/v1") (Some "myorg") (Some "dXNlcjpwdw==")
        fetch stringify.

(** The remote answers every request with [404 Not Found]. *)
Definition notFound : Env :=
  host (fun _ _ => FetchResolved (mkResponse 404 "Not Found" (JsonParsed JNull))).

(** The remote cannot be reached. *)
Definition unreachable : Env :=
  host (fun _ _ => FetchRejected "getaddrinfo ENOTFOUND hub.example").

(** The remote answers every request with [200 OK] and the given body. *)
Definition replying (body : JsVal) : Env :=
  host (fun _ _ => FetchResolved (mkResponse 200 "OK" (JsonParsed body))).

Definition servicesBody : JsVal :=
  JObj [("services", JObj []); ("lastIndex", JNum 0)].

Definition statusBody : JsVal :=
  JObj [("connectivity", JObj []); ("runningServices", JStr "")].

Definition contentBody : JsVal :=
  JObj [("content", JNum 5)].

End Examples.

(** ** Session registry and request router (the HTTP server module) *)

Module Server.

Inductive Method : Type := GET | POST | PUT | DELETE.

Definition Method_eqb (a b : Method) : bool :=
  match a, b with
  | GET, GET | POST, POST | PUT, PUT | DELETE, DELETE => true
  | _, _ => false
  end.

(** A value of [IncomingHttpHeaders]: [string | string[]]. *)
Inductive HeaderValue : Type :=
| HString (s : string)
| HArray (ss : list string).

Definition IncomingHttpHeaders : Type := list (string * HeaderValue).

(** An Express request, after [express.json()] has parsed its body.
    [path] is the path the router matches on. *)
Record Request : Type := mkRequest {
  method : Method;
  path : string;
  headers : IncomingHttpHeaders;
  body : JsVal
}.

(** [req.headers[k]] *)
Definition header (k : string) (req : Request) : option HeaderValue :=
  snd <$> find (fun p => (fst p =? k)%string) (headers req).

(** Objects of the SDK are known by their identity. *)
Definition TransportRef : Type := nat.
Definition ServerRef : Type := nat.

(** [SessionEntry] of [models/model] *)
Record SessionEntry : Type := mkEntry {
  server : ServerRef;
  transport : TransportRef;
  latestHeaders : option IncomingHttpHeaders
}.

(** A [StreamableHTTPServerTransport] constructed by the POST handler:
    its [sessionId] property ([undefined] until the SDK has handled the
    initialize message) and what its three closures ([sessionIdGenerator],
    [onsessioninitialized], [onclose]) captured. *)
Record StreamableHTTPServerTransport : Type := mkTransport {
  sessionId : option string;
  newSessionId : string;
  boundServer : ServerRef;
  initialHeaders : IncomingHttpHeaders
}.

(** The module-level [sessions] table and the transports constructed so
    far; a [TransportRef] is a position in [transports], and the server
    made by [createMcpServer] in the same request has the same number.
    Only own entries of [sessions] are modelled, not the members it
    inherits from [Object.prototype]. *)
Record State : Type := mkState {
  sessions : gmap string SessionEntry;
  transports : list StreamableHTTPServerTransport
}.

Definition initial : State := mkState ∅ [].

Inductive Body : Type :=
| Text (s : string)
| Json (v : JsVal).

(** What becomes of a request:
    - a response a handler of this module writes ([responseHeaders] are the
      headers it sets itself);
    - whatever the transport the request was handed to writes;
    - the answer of Express to a request no layer ends, status [404] with
      its page "Cannot VERB resource";
    - a handler that throws: its promise rejects with a [TypeError] and no
      handler of this module writes a response. *)
Inductive Reply : Type :=
| Status (code : Z) (responseHeaders : Headers) (payload : Body)
| Forwarded (t : TransportRef)
| NotFound (verb : Method) (resource : string)
| Failed (error : string).

(** The status code, where this module or Express by itself decides it. *)
Definition statusCode (r : Reply) : option Z :=
  match r with
  | Status code _ _ => Some code
  | NotFound _ _ => Some 404
  | Forwarded _ | Failed _ => None
  end.

(** The header as the handlers reduce it to a session id:
    a string is taken as it is, of an array the first element. *)
Definition sessionIdOf (sessionIdHeader : option HeaderValue) : option string :=
  match sessionIdHeader with
  | Some (HString s) => Some s
  | Some (HArray ss) => head ss
  | None => None
  end.

(** [!sessionIdHeader] *)
Definition headerFalsy (sessionIdHeader : option HeaderValue) : bool :=
  match sessionIdHeader with
  | None => true
  | Some (HString s) => (s =? "")%string
  | Some (HArray _) => false
  end.

(** The names every plain object inherits from [Object.prototype]; each of
    them reads as a function or an object, which is truthy and has no
    [transport] property. *)
Definition objectPrototype : list string :=
  ["constructor"; "__proto__"; "hasOwnProperty"; "isPrototypeOf";
   "propertyIsEnumerable"; "toLocaleString"; "toString"; "valueOf";
   "__defineGetter__"; "__defineSetter__"; "__lookupGetter__"; "__lookupSetter__"].

Definition inheritedMember (id : string) : bool :=
  existsb (String.eqb id) objectPrototype.

(** What [sessionId && sessions[sessionId]] evaluates to: an entry of the
    table, a member inherited from [Object.prototype], or a falsy value. *)
Inductive Lookup : Type :=
| Found (entry : SessionEntry)
| Foreign
| Absent.

Definition lookupSession (σ : State) (sessionId : option string) : Lookup :=
  match sessionId with
  | Some id =>
      if (id =? "")%string then Absent
      else match sessions σ !! id with
           | Some entry => Found entry
           | None => if inheritedMember id then Foreign else Absent
           end
  | None => Absent
  end.

(** [x.transport.handleRequest(...)] where [x.transport] is [undefined] *)
Definition noTransport : Reply :=
  Failed "Cannot read properties of undefined (reading 'handleRequest')".

Definition methodNotAllowed : Reply :=
  Status 405 [("Allow", "POST")] (Text "Method Not Allowed").

Definition badRequest : Reply :=
  Status 400 []
    (Json (JObj [("jsonrpc", JStr "2.0");
                 ("error", JObj [("code", JNum (-32000));
                                 ("message", JStr "Bad Request: No valid session ID provided")]);
                 ("id", JNull)])).

Section Router.
(** [isInitializeRequest] of the SDK. *)
Variable isInitializeRequest : JsVal -> bool.

(** [app.post(MCP_PATH, ...)]; [uuid] is what [randomUUID()] returns if
    it is called. *)
Definition postHandler (σ : State) (req : Request) (uuid : string) : State * Reply :=
  let sessionIdHeader := header "mcp-session-id" req in
  let sessionId := sessionIdOf sessionIdHeader in
  match lookupSession σ sessionId with
  | Found sessionEntry => (σ, Forwarded (transport sessionEntry))
  | Foreign => (σ, noTransport)
  | Absent =>
      if headerFalsy sessionIdHeader && isInitializeRequest (body req) then
        let newSessionId := uuid in
        let ref := length (transports σ) in
        let transport := mkTransport None newSessionId ref (headers req) in
        let sessionEntry := mkEntry ref ref None in
        (mkState (<[newSessionId := sessionEntry]> (sessions σ))
                 (transports σ ++ [transport])%list,
         Forwarded ref)
      else (σ, badRequest)
  end.

(** [handleSessionRequest] *)
Definition handleSessionRequest (σ : State) (req : Request) : State * Reply :=
  let sessionIdHeader := header "mcp-session-id" req in
  let sessionId := sessionIdOf sessionIdHeader in
  match lookupSession σ sessionId with
  | Absent => (σ, Status 400 [] (Text "Invalid or missing session ID"))
  | Found entry => (σ, Forwarded (transport entry))
  | Foreign => (σ, noTransport)
  end.

(** *** The Express application *)

(** A handler either ends the response or calls [next()]. *)
Inductive Outcome : Type :=
| Next
| Done (σ : State) (reply : Reply).

(** A layer of the router stack: [app.use(h)] has neither verb nor
    path, [app.get(path, h)] has both. *)
Record Layer : Type := mkLayer {
  verb : option Method;
  route : option string;
  handle : State -> Request -> string -> Outcome
}.

Definition MCP_PATH : string := "/mcp".

(** The layers in the order the module registers them. *)
Definition app : list Layer :=
  [ mkLayer None None (fun _ _ _ => Next);                 (* express.json() *)
    mkLayer None None (fun _ _ _ => Next);                 (* the logging middleware *)
    mkLayer (Some GET) (Some MCP_PATH) (fun σ _ _ => Done σ methodNotAllowed);
    mkLayer (Some DELETE) (Some MCP_PATH) (fun σ _ _ => Done σ methodNotAllowed);
    mkLayer (Some POST) (Some MCP_PATH)
            (fun σ req uuid => let '(σ', r) := postHandler σ req uuid in Done σ' r);
    mkLayer (Some GET) (Some "/mcp")
            (fun σ req _ => let '(σ', r) := handleSessionRequest σ req in Done σ' r);
    mkLayer (Some DELETE) (Some "/mcp")
            (fun σ req _ => let '(σ', r) := handleSessionRequest σ req in Done σ' r) ].

(** Letters [A]-[Z] in lower case, any other character as it is. *)
Definition lowerAscii (c : ascii) : ascii :=
  let n := nat_of_ascii c in
  if ((65 <=? n) && (n <=? 90))%nat then ascii_of_nat (n + 32) else c.

Fixpoint toLowerCase (s : string) : string :=
  match s with
  | EmptyString => EmptyString
  | String c rest => String (lowerAscii c) (toLowerCase rest)
  end.

(** A route path made of plain characters, as Express matches it by
    default: without regard to case, and with or without one trailing
    slash. *)
Definition routeMatches (route p : string) : bool :=
  (toLowerCase p =? toLowerCase route)%string
  || (toLowerCase p =? toLowerCase route +:+ "/")%string.

Definition matches (l : Layer) (req : Request) : bool :=
  match verb l with Some m => Method_eqb m (method req) | None => true end
  && match route l with Some p => routeMatches p (path req) | None => true end.

(** Express answers a request no layer ends with [404]. *)
Definition finalhandler (req : Request) : Reply :=
  NotFound (method req) (path req).

(** Express runs the first matching layer, and the following ones only
    as far as each calls [next()]. *)
Fixpoint dispatch (stack : list Layer) (σ : State) (req : Request) (uuid : string)
  : State * Reply :=
  match stack with
  | [] => (σ, finalhandler req)
  | l :: rest =>
      if matches l req then
        match handle l σ req uuid with
        | Next => dispatch rest σ req uuid
        | Done σ' reply => (σ', reply)
        end
      else dispatch rest σ req uuid
  end.

Definition serve : State -> Request -> string -> State * Reply := dispatch app.

(** *** The callbacks of a transport *)

(** [onsessioninitialized(sid)] of transport [t] *)
Definition onsessioninitialized (t : TransportRef) (sid : string) (σ : State) : State :=
  match transports σ !! t with
  | Some tr =>
      mkState (<[sid := mkEntry (boundServer tr) t (Some (initialHeaders tr))]> (sessions σ))
              (transports σ)
  | None => σ
  end.

(** [transport.onclose()] of transport [t] *)
Definition onclose (t : TransportRef) (σ : State) : State :=
  match transports σ !! t with
  | Some tr =>
      match sessionId tr with
      | Some id =>
          match lookupSession σ (Some id) with
          | Found _ | Foreign => mkState (delete id (sessions σ)) (transports σ)
          | Absent => σ
          end
      | None => σ
      end
  | None => σ
  end.

(** What the SDK does when transport [t] handles the initialize message:
    it sets [sessionId] to what [sessionIdGenerator()] returns and calls
    [onsessioninitialized] with it. *)
Definition initialize (t : TransportRef) (σ : State) : State :=
  match transports σ !! t with
  | Some tr =>
      let sid := newSessionId tr in
      onsessioninitialized t sid
        (mkState (sessions σ)
                 (<[t := mkTransport (Some sid) (newSessionId tr) (boundServer tr)
                                     (initialHeaders tr)]> (transports σ)))
  | None => σ
  end.

(** *** Runs of the server *)

Inductive Event : Type :=
| Incoming (req : Request) (uuid : string)
| Initialized (t : TransportRef)
| Closed (t : TransportRef).

Definition step (σ : State) (ev : Event) : State :=
  match ev with
  | Incoming req uuid => fst (serve σ req uuid)
  | Initialized t => initialize t σ
  | Closed t => onclose t σ
  end.

(** What the environment guarantees: [randomUUID()] returns a UUID, which
    is not empty and not the name of a member of [Object.prototype], and
    which it has not returned before; and the SDK initializes a transport
    at most once. *)
Definition admissible (σ : State) (ev : Event) : Prop :=
  match ev with
  | Incoming _ uuid =>
      uuid ≠ "" ∧ inheritedMember uuid = false
      ∧ ∀ tr, tr ∈ transports σ → newSessionId tr ≠ uuid
  | Initialized t =>
      ∃ tr, transports σ !! t = Some tr ∧ sessionId tr = None
  | Closed _ => True
  end.

Inductive reachable : State -> Prop :=
| reachable_initial : reachable initial
| reachable_step σ ev : reachable σ -> admissible σ ev -> reachable (step σ ev).

Definition run_events (σ : State) (evs : list Event) : State :=
  fold_left step evs σ.

End Router.

(** *** The registry invariant *)

(** Every entry of [sessions] is filed under the identifier its transport
    was constructed for, next to the server constructed with it; no two
    transports were constructed for the same identifier; a transport's
    [sessionId], once set, is that identifier; and no identifier is the name
    of an inherited member. *)
Definition consistent (σ : State) : Prop :=
  (∀ id e, sessions σ !! id = Some e →
     ∃ tr, transports σ !! transport e = Some tr
           ∧ newSessionId tr = id ∧ boundServer tr = server e)
  ∧ (∀ t1 t2 tr1 tr2,
       transports σ !! t1 = Some tr1 → transports σ !! t2 = Some tr2 →
       newSessionId tr1 = newSessionId tr2 → t1 = t2)
  ∧ (∀ t tr, transports σ !! t = Some tr →
       newSessionId tr ≠ "" ∧ ∀ id, sessionId tr = Some id → id = newSessionId tr)
  ∧ (∀ t tr, transports σ !! t = Some tr → inheritedMember (newSessionId tr) = false).

(** *** An example run *)

(** A stand-in for [isInitializeRequest]: the body is an object whose
    [method] is ["initialize"]. *)
Definition isInitialize (body : JsVal) : bool :=
  match body with
  | JObj props =>
      match Js.get "method" props with
      | Some (JStr m) => (m =? "initialize")%string
      | _ => false
      end
  | _ => false
  end.

Definition initializeBody : JsVal :=
  JObj [("jsonrpc", JStr "2.0"); ("id", JNum 1); ("method", JStr "initialize")].

(** One session, initiated and initialized. *)
Definition oneSession : State :=
  run_events isInitialize initial
    [Incoming (mkRequest POST "/mcp" [] initializeBody) "3f2a-01"; Initialized 0%nat].

Definition withSession (m : Method) (path id : string) : Request :=
  mkRequest m path [("mcp-session-id", HString id)] JUndefined.

(** Two sessions, each initiated and initialized. *)
Definition twoSessions : State :=
  run_events isInitialize initial
    [Incoming (mkRequest POST "/mcp" [] initializeBody) "3f2a-01"; Initialized 0%nat;
     Incoming (mkRequest POST "/mcp" [] initializeBody) "77c0-02"; Initialized 1%nat].


End Server.

(** * Properties *)

(** ** Resource client *)

Lemma getErrorMessage_of_string (s : string) :
  getErrorMessage (JStr s) = textResponse "An unknown error occurred.".
Proof. reflexivity. Qed.

Lemma getErrorMessage_of_Error (m : string) :
  getErrorMessage (JErr m) = textResponse ("Error fetching data: " +:+ m).
Proof. reflexivity. Qed.

Lemma textResponse_isToolResponse (t : string) : isToolResponse (textResponse t) = true.
Proof. reflexivity. Qed.

Lemma getErrorMessage_isToolResponse (err : JsVal) :
  isToolResponse (getErrorMessage err) = true.
Proof. destruct err; reflexivity. Qed.

(** [makeHttpRequest] makes exactly one network call and always settles with
    a value: the parsed body of a 2xx reply, or else one fixed envelope. *)
Lemma makeHttpRequest_run (env : Env) (url : string) (headers : Headers)
      (calls : list HttpCall) :
  let finalHeaders := spread [("Accept", "application/json")] headers in
  makeHttpRequest env url headers calls =
  (Returned
     match fetch env url finalHeaders with
     | FetchResolved r =>
         if ok r then
           match json r with
           | JsonParsed body => body
           | JsonRejected _ => textResponse "An unknown error occurred."
           end
         else textResponse "An unknown error occurred."
     | FetchRejected _ => textResponse "An unknown error occurred."
     end,
   (calls ++ [mkCall url finalHeaders])%list).
Proof.
  intros finalHeaders.
  unfold makeHttpRequest, try_catch, mbind, Async_bind, await_fetch.
  fold finalHeaders.
  destruct (fetch env url finalHeaders) as [r | m]; [| reflexivity].
  destruct (ok r); simpl; [| reflexivity].
  unfold await_json. destruct (json r); reflexivity.
Qed.

Lemma makeHttpRequest_http_error (env : Env) (url : string) (headers : Headers)
      (r : Response) :
  fetch env url (spread [("Accept", "application/json")] headers) = FetchResolved r ->
  ok r = false ->
  result (makeHttpRequest env url headers)
  = Returned (textResponse "An unknown error occurred.").
Proof.
  intros Hf Hok. unfold result, run. rewrite makeHttpRequest_run. simpl.
  rewrite Hf, Hok. reflexivity.
Qed.

Lemma makeHttpRequest_transport_error (env : Env) (url : string) (headers : Headers)
      (m : string) :
  fetch env url (spread [("Accept", "application/json")] headers) = FetchRejected m ->
  result (makeHttpRequest env url headers)
  = Returned (textResponse "An unknown error occurred.").
Proof.
  intros Hf. unfold result, run. rewrite makeHttpRequest_run. simpl.
  rewrite Hf. reflexivity.
Qed.

Lemma makeHttpRequest_success (env : Env) (url : string) (headers : Headers)
      (r : Response) (body : JsVal) :
  fetch env url (spread [("Accept", "application/json")] headers) = FetchResolved r ->
  ok r = true -> json r = JsonParsed body ->
  forall calls, fst (makeHttpRequest env url headers calls) = Returned body.
Proof.
  intros Hf Hok Hj calls. rewrite makeHttpRequest_run. simpl.
  rewrite Hf, Hok, Hj. reflexivity.
Qed.

(** C2. On a remote [404 Not Found] the client does return an envelope
    without raising, but the envelope's text is the fixed sentence
    "An unknown error occurred.": [makeHttpRequest] hands [getErrorMessage]
    a string, which is not an [Error], so the status code and the status
    text it formatted are dropped.  The same happens to the message of a
    transport-level failure. *)
Theorem makeHttpRequest_404_text :
  let url := "https://hub.example/v1/myorg/services/foo" in
  result (makeHttpRequest Examples.notFound url [])
  = Returned (textResponse "An unknown error occurred.")
  /\ envelopeText (textResponse "An unknown error occurred.")
     = Some "An unknown error occurred."
  /\ Js.includes "404" "An unknown error occurred." = false
  /\ Js.includes "Not Found" "An unknown error occurred." = false
  /\ result (makeHttpRequest Examples.unreachable url [])
     = Returned (textResponse "An unknown error occurred.")
  /\ Js.includes "ENOTFOUND" "An unknown error occurred." = false.
Proof.
  cbv zeta. repeat split; reflexivity.
Qed.

(** ** Action dispatcher *)

Ltac async_unfold :=
  unfold try_catch, throw, mbind, Async_bind, mret, Async_ret.

Lemma eqb_string_true (a b : string) : (a =? b)%string = true <-> a = b.
Proof. apply String.eqb_eq. Qed.

Lemma knownTarget_iff (t : string) :
  knownTarget t = true <-> t = "service" \/ t = "node" \/ t = "policy".
Proof.
  unfold knownTarget. simpl. rewrite !orb_true_iff, !eqb_string_true.
  intuition discriminate.
Qed.

(** Each handler but the guard of [listResources] settles with a value. *)
Lemma getResourceDetails_returns (env : Env) (target : string)
      (name policyType : option string) (calls : list HttpCall) :
  exists v, fst (getResourceDetails env target name policyType calls) = Returned v.
Proof.
  unfold getResourceDetails. async_unfold. cbv zeta.
  repeat match goal with
         | |- context [if ?b then _ else _] => destruct b
         end;
    try rewrite makeHttpRequest_run; simpl; eauto.
Qed.

Lemma getResourceStatus_returns (env : Env) (target : string) (name : option string)
      (calls : list HttpCall) :
  exists v, fst (getResourceStatus env target name calls) = Returned v.
Proof.
  unfold getResourceStatus. async_unfold.
  destruct (target =? "node")%string; [rewrite makeHttpRequest_run |]; simpl; eauto.
Qed.

Lemma listResources_returns (env : Env) (target : string)
      (name policyType : option string) (calls : list HttpCall) :
  knownTarget target = true ->
  exists v, fst (listResources env target name policyType calls) = Returned v.
Proof.
  intros Hk. unfold listResources. rewrite Hk. cbn [negb].
  async_unfold. cbv zeta.
  repeat match goal with
         | |- context [if ?b then _ else _] => destruct b
         end;
    try rewrite makeHttpRequest_run; simpl; eauto.
Qed.

Lemma listResources_throws (env : Env) (target : string)
      (name policyType : option string) (calls : list HttpCall) :
  knownTarget target = false ->
  listResources env target name policyType calls =
  (Thrown ("Invalid target type: " +:+ target
           +:+ ". Must be one of 'service', 'node', or 'policy'."), calls).
Proof. intros Hk. unfold listResources. rewrite Hk. reflexivity. Qed.

(** [details] of a service hands a successful reply to the caller as it
    is. *)
Lemma details_service_passthrough (env : Env) (name : string) (r : Response)
      (body : JsVal) :
  name <> "" ->
  fetch env (orgUrl env +:+ "/services/" +:+ name) (requestHeaders env)
  = FetchResolved r ->
  ok r = true -> json r = JsonParsed body ->
  result (toolCallback env (mkParams "details" "service" (Some name) None JUndefined))
  = Returned body.
Proof.
  intros Hn Hf Hok Hj.
  destruct name as [| c name]; [congruence |].
  unfold result, run, toolCallback, getResourceDetails, overrideTarget.
  async_unfold. cbn -[makeHttpRequest String.append].
  rewrite makeHttpRequest_run. cbv zeta. fold (requestHeaders env).
  rewrite Hf, Hok, Hj. reflexivity.
Qed.

(** C3. A successful remote fetch of [getResourceDetails] or
    [getResourceStatus] is handed to the caller as the remote body itself,
    which has no [content] property, whereas a failed one is an envelope:
    [details] of the service [foo] and [status] of the node [n1] against a
    remote that answers [200]. *)
Theorem details_success_is_not_an_envelope :
  result (toolCallback (Examples.replying Examples.servicesBody)
            (mkParams "details" "service" (Some "foo") None JUndefined))
  = Returned Examples.servicesBody
  /\ isToolResponse Examples.servicesBody = false
  /\ Js.has_key "content" Examples.servicesBody = false
  /\ result (toolCallback (Examples.replying Examples.statusBody)
               (mkParams "status" "node" (Some "n1") None JUndefined))
     = Returned Examples.statusBody
  /\ isToolResponse Examples.statusBody = false
  /\ result (toolCallback Examples.notFound
               (mkParams "details" "service" (Some "foo") None JUndefined))
     = Returned (textResponse "An unknown error occurred.")
  /\ isToolResponse (textResponse "An unknown error occurred.") = true.
Proof. repeat split; reflexivity. Qed.

(** C5, as stated, fails: for [list] with [target = "service"] and
    [policyType = "node"] the services collection is fetched, while with
    [target = "policy"] no request is made at all. *)
Lemma list_does_not_coerce_target :
  ~ (forall (env : Env) (p : Params),
        Js.absent (policyType p) = false -> target p <> "policy" ->
        run (toolCallback env p) = run (toolCallback env (withTarget "policy" p))).
Proof.
  intros H.
  assert (Hne : "service" <> "policy") by (intros E; discriminate E).
  specialize (H (Examples.replying Examples.servicesBody)
                (mkParams "list" "service" None (Some "node") JUndefined)
                eq_refl Hne).
  vm_compute in H. discriminate H.
Qed.

Lemma overrideTarget_supplied (policyType : option string) (target : string) :
  Js.absent policyType = false -> overrideTarget policyType target = "policy".
Proof.
  intros Hp. unfold overrideTarget. rewrite Hp. simpl.
  destruct (target =? "policy")%string eqn:E; simpl; [| reflexivity].
  now apply String.eqb_eq in E.
Qed.

Lemma overrideTarget_idempotent (policyType : option string) (target : string) :
  overrideTarget policyType (overrideTarget policyType target)
  = overrideTarget policyType target.
Proof.
  unfold overrideTarget at 2 3.
  destruct (negb (Js.absent policyType) && negb (target =? "policy")%string) eqn:E.
  - unfold overrideTarget. simpl. now rewrite andb_false_r.
  - unfold overrideTarget. now rewrite E.
Qed.

(** C5, amended.  For the [details] action, a request that supplies a
    policy type is handled, whatever its target, exactly as the same request
    with [target = "policy"]: same result and same network calls.  The
    coercion is idempotent. *)
Theorem details_coerces_target (env : Env) (p : Params) :
  action p = "details" ->
  Js.absent (policyType p) = false ->
  (forall calls,
      toolCallback env p calls = toolCallback env (withTarget "policy" p) calls)
  /\ overrideTarget (policyType p) (overrideTarget (policyType p) (target p))
     = overrideTarget (policyType p) (target p)
  /\ overrideTarget (policyType p) (target p) = "policy".
Proof.
  intros Ha Hp. destruct p as [a t n pt d]. simpl in *. subst a.
  split; [| split].
  - intros calls. unfold withTarget, toolCallback. simpl.
    destruct (Js.absent n); [reflexivity |].
    unfold getResourceDetails.
    now rewrite !(overrideTarget_supplied pt _ Hp).
  - apply overrideTarget_idempotent.
  - now apply overrideTarget_supplied.
Qed.

Lemma details_coerces_target_witness :
  run (toolCallback Examples.notFound
         (mkParams "details" "service" (Some "edge-1") (Some "node") JUndefined))
  = run (toolCallback Examples.notFound
           (mkParams "details" "policy" (Some "edge-1") (Some "node") JUndefined))
  /\ calls_of (toolCallback Examples.notFound
                 (mkParams "details" "service" (Some "edge-1") (Some "node") JUndefined))
     = [mkCall "https://hub.example/v1/myorg/nodes/edge-1/policy"
               [("Accept", "application/json"); ("Authorization", "Basic dXNlcjpwdw==")]].
Proof.
  split; [| reflexivity].
  exact (proj1 (details_coerces_target Examples.notFound
                  (mkParams "details" "service" (Some "edge-1") (Some "node") JUndefined)
                  eq_refl eq_refl) []).
Defined.

(** C6, as stated, fails: [list] with a target outside the three known ones
    rejects with the [Error] that the guard at the head of [listResources]
    throws before its [try] statement. *)
Lemma list_unknown_target_throws :
  ~ (forall (env : Env) (p : Params),
        exists v, result (toolCallback env p) = Returned v).
Proof.
  intros H.
  destruct (H Examples.notFound (mkParams "list" "deployment" None None JUndefined))
    as [v Hv].
  vm_compute in Hv. discriminate Hv.
Qed.

(** C6, amended.  The resource client never throws: whatever the remote
    does, [makeHttpRequest] settles with the parsed body of a 2xx reply or
    with an error envelope.  [toolCallback] settles with a value for every
    request except [list] with a target other than [service], [node] and
    [policy], for which it rejects, before any network call, with the
    [Error] "Invalid target type: <target>. Must be one of 'service',
    'node', or 'policy'." *)
Theorem dispatcher_settles (env : Env) :
  (forall url headers calls,
      exists v,
        fst (makeHttpRequest env url headers calls) = Returned v
        /\ (isToolResponse v = true
            \/ exists r,
                 fetch env url (spread [("Accept", "application/json")] headers)
                 = FetchResolved r
                 /\ ok r = true /\ json r = JsonParsed v))
  /\ (forall p calls,
         (action p = "list" -> knownTarget (target p) = true) ->
         exists v, fst (toolCallback env p calls) = Returned v)
  /\ (forall p calls,
         action p = "list" -> knownTarget (target p) = false ->
         toolCallback env p calls
         = (Thrown ("Invalid target type: " +:+ target p
                    +:+ ". Must be one of 'service', 'node', or 'policy'."),
            calls)).
Proof.
  split; [| split].
  - intros url headers calls. rewrite makeHttpRequest_run. cbv zeta. simpl fst.
    eexists. split; [reflexivity |].
    destruct (fetch env url _) as [r | m] eqn:Hf; [| now left].
    destruct (ok r) eqn:Hok; [| now left].
    destruct (json r) as [body | m] eqn:Hj; [| now left].
    right. exists r. auto.
  - intros [a t n pt d] calls Hk. simpl in Hk. unfold toolCallback.
    destruct (a =? "list")%string eqn:Ea.
    { apply listResources_returns, Hk. now apply String.eqb_eq. }
    destruct (a =? "details")%string.
    { destruct (Js.absent n); [async_unfold; simpl; eauto |].
      apply getResourceDetails_returns. }
    destruct (a =? "create")%string.
    { destruct (negb (Js.truthy d)); unfold createResource; async_unfold; simpl; eauto. }
    destruct (a =? "delete")%string.
    { destruct (Js.absent n); unfold deleteResource; async_unfold; simpl; eauto. }
    destruct (a =? "status")%string.
    { destruct (Js.absent n); [async_unfold; simpl; eauto |].
      apply getResourceStatus_returns. }
    async_unfold. simpl. eauto.
  - intros [a t n pt d] calls Ha Hk. simpl in *. subst a.
    unfold toolCallback. simpl. now rewrite listResources_throws by exact Hk.
Qed.

Lemma dispatcher_settles_witness :
  (exists v,
      fst (toolCallback Examples.unreachable
             (mkParams "list" "node" None None JUndefined) []) = Returned v)
  /\ toolCallback Examples.unreachable
       (mkParams "list" "deployment" None None JUndefined) []
     = (Thrown "Invalid target type: deployment. Must be one of 'service', 'node', or 'policy'.",
        []).
Proof.
  split.
  - apply (proj1 (proj2 (dispatcher_settles Examples.unreachable))).
    intros _. reflexivity.
  - apply (proj2 (proj2 (dispatcher_settles Examples.unreachable)));
      reflexivity.
Defined.




(** [details], [delete] and [status] without a name, and [create] without
    data, are answered before any handler runs: with what [getErrorMessage]
    makes of the "... is required" message of that action, and with the
    trace of network calls left as it was. *)
Theorem missing_parameter_before_network (env : Env) (p : Params)
        (calls : list HttpCall) :
  ((action p = "details" \/ action p = "delete" \/ action p = "status")
   /\ Js.absent (name p) = true)
  \/ (action p = "create" /\ Js.truthy (data p) = false) ->
  let required :=
    if (action p =? "create")%string then "Data is required for create action"
    else "Name is required for " +:+ action p +:+ " action" in
  toolCallback env p calls = (Returned (getErrorMessage (JStr required)), calls)
  /\ isToolResponse (getErrorMessage (JStr required)) = true
  /\ calls_of (toolCallback env p) = [].
Proof.
  destruct p as [a t n pt d]. simpl.
  intros [[Ha Hn] | [Ha Hd]].
  - destruct Ha as [-> | [-> | ->]]; unfold calls_of, run, toolCallback;
      simpl; rewrite Hn; repeat split; reflexivity.
  - subst a. unfold calls_of, run, toolCallback. simpl. rewrite Hd.
    repeat split; reflexivity.
Qed.

Lemma missing_parameter_before_network_witness :
  toolCallback (Examples.replying Examples.servicesBody)
    (mkParams "delete" "service" None None JUndefined) []
  = (Returned (textResponse "An unknown error occurred."), [])
  /\ toolCallback (Examples.replying Examples.servicesBody)
       (mkParams "create" "policy" (Some "p1") (Some "node") JUndefined) []
     = (Returned (textResponse "An unknown error occurred."), []).
Proof.
  split.
  - apply (missing_parameter_before_network
             (Examples.replying Examples.servicesBody)
             (mkParams "delete" "service" None None JUndefined) []).
    left. split; [right; left |]; reflexivity.
  - apply (missing_parameter_before_network
             (Examples.replying Examples.servicesBody)
             (mkParams "create" "policy" (Some "p1") (Some "node") JUndefined) []).
    right. split; reflexivity.
Defined.

(** C8.  A request that lacks its name or its data is answered without
    any network call, but not with an envelope that says so: [toolCallback]
    hands the "... is required" message to [getErrorMessage] as a string,
    which is not an [Error], so the answer is the fixed envelope "An
    unknown error occurred.", the very answer to an unknown action and to a
    failed remote call. *)
Theorem missing_parameter_envelope_is_generic :
  let env := Examples.replying Examples.servicesBody in
  let absentName := mkParams "delete" "service" None None JUndefined in
  let absentData := mkParams "create" "policy" (Some "p1") (Some "node") JUndefined in
  let unknownAction := mkParams "update" "service" (Some "web") None JUndefined in
  let remoteFailure := mkParams "details" "service" (Some "web") None JUndefined in
  run (toolCallback env absentName)
  = (Returned (textResponse "An unknown error occurred."), [])
  /\ run (toolCallback env absentData)
     = (Returned (textResponse "An unknown error occurred."), [])
  /\ Js.includes "required" "An unknown error occurred." = false
  /\ Js.includes "Name" "An unknown error occurred." = false
  /\ run (toolCallback env absentName) = run (toolCallback env unknownAction)
  /\ result (toolCallback env absentName)
     = result (toolCallback Examples.notFound remoteFailure).
Proof. cbv zeta. repeat split; reflexivity. Qed.

Lemma wrapListResponse_content (env : Env) (response : JsVal) :
  Js.has_key "content" response = true -> wrapListResponse env response = response.
Proof.
  intros H. unfold wrapListResponse. rewrite H.
  destruct response; try discriminate H; reflexivity.
Qed.

Lemma wrapListResponse_no_content (env : Env) (response : JsVal) :
  Js.has_key "content" response = false ->
  wrapListResponse env response = textResponse (JSON_stringify env response).
Proof.
  intros H. unfold wrapListResponse. rewrite H. now rewrite andb_false_r.
Qed.

Lemma listResources_success (env : Env) (target : string)
      (name policyType : option string) (r : Response) (body : JsVal)
      (calls : list HttpCall) :
  knownTarget target = true ->
  ~ (target = "policy" /\ Js.equals policyType "node" = true /\ Js.absent name = true) ->
  fetch env (listEndpoint env target name policyType) (requestHeaders env)
  = FetchResolved r ->
  ok r = true -> json r = JsonParsed body ->
  fst (listResources env target name policyType calls)
  = Returned (wrapListResponse env body).
Proof.
  intros Hk Hno Hf Hok Hj. unfold listResources. rewrite Hk. cbn [negb].
  unfold listEndpoint in Hf. async_unfold.
  destruct (target =? "policy")%string eqn:Et.
  - apply String.eqb_eq in Et.
    destruct (Js.equals policyType "node") eqn:Ep.
    + destruct (Js.absent name) eqn:En; [exfalso; apply Hno; auto |].
      rewrite makeHttpRequest_run. cbv zeta. fold (requestHeaders env).
      unfold nodePolicyLookup in Hf. rewrite Hf, Hok, Hj. reflexivity.
    + rewrite makeHttpRequest_run. cbv zeta. fold (requestHeaders env).
      unfold policyCollection in Hf. rewrite Hf, Hok, Hj. reflexivity.
  - cbv zeta. rewrite makeHttpRequest_run. cbv zeta. fold (requestHeaders env).
    unfold pluralCollection in Hf. rewrite Hf, Hok, Hj. reflexivity.
Qed.

(** C10.  When the remote answers a [list] request with a 2xx JSON body,
    [listResources] returns the body itself if it has a top-level [content]
    property, and a text envelope around its serialization only if it has
    none. *)
Theorem listResources_content_passthrough (env : Env) (target : string)
        (name policyType : option string) (r : Response) (body : JsVal)
        (calls : list HttpCall) :
  knownTarget target = true ->
  ~ (target = "policy" /\ Js.equals policyType "node" = true /\ Js.absent name = true) ->
  fetch env (listEndpoint env target name policyType) (requestHeaders env)
  = FetchResolved r ->
  ok r = true -> json r = JsonParsed body ->
  (Js.has_key "content" body = true ->
   fst (listResources env target name policyType calls) = Returned body)
  /\ (Js.has_key "content" body = false ->
      fst (listResources env target name policyType calls)
      = Returned (textResponse (JSON_stringify env body))).
Proof.
  intros Hk Hno Hf Hok Hj.
  rewrite (listResources_success env target name policyType r body calls Hk Hno Hf Hok Hj).
  split; intros Hc.
  - now rewrite wrapListResponse_content.
  - now rewrite wrapListResponse_no_content.
Qed.

Lemma listResources_content_passthrough_witness :
  fst (listResources (Examples.replying Examples.contentBody) "policy" None None [])
  = Returned Examples.contentBody
  /\ fst (listResources (Examples.replying (JObj [])) "node" None None [])
     = Returned (textResponse "{}").
Proof.
  split.
  - refine (proj1 (listResources_content_passthrough
                     (Examples.replying Examples.contentBody) "policy" None None
                     (mkResponse 200 "OK" (JsonParsed Examples.contentBody))
                     Examples.contentBody [] eq_refl _ eq_refl eq_refl eq_refl)
                  eq_refl).
    intros (_ & E & _). discriminate E.
  - refine (proj2 (listResources_content_passthrough
                     (Examples.replying (JObj [])) "node" None None
                     (mkResponse 200 "OK" (JsonParsed (JObj [])))
                     (JObj []) [] eq_refl _ eq_refl eq_refl eq_refl)
                  eq_refl).
    intros (E & _). discriminate E.
Defined.

(** A remote 2xx body that has the shape of the client's error envelope
    comes back from [listResources] exactly as the error envelope of a
    failed request does. *)
Example listResources_success_like_error :
  result (listResources
            (Examples.replying (textResponse "An unknown error occurred."))
            "service" None None)
  = result (listResources Examples.notFound "service" None None).
Proof. reflexivity. Qed.

(** ** Request router *)

Import Server.

Lemma lookupSession_Found (σ : State) (sid : option string) (e : SessionEntry) :
  lookupSession σ sid = Found e <->
  exists id, sid = Some id /\ id <> "" /\ sessions σ !! id = Some e.
Proof.
  unfold lookupSession. split.
  - destruct sid as [id |]; [| discriminate].
    destruct (id =? "")%string eqn:E; [discriminate |].
    apply String.eqb_neq in E.
    destruct (sessions σ !! id) as [e' |] eqn:Hl.
    + intros H. inversion H; subst. eauto.
    + destruct (inheritedMember id); discriminate.
  - intros (id & -> & Hne & Hl). apply String.eqb_neq in Hne.
    now rewrite Hne, Hl.
Qed.

Lemma lookupSession_unknown (σ : State) (id : string) :
  sessions σ !! id = None -> inheritedMember id = false ->
  lookupSession σ (Some id) = Absent.
Proof.
  intros Hl Hi. unfold lookupSession. rewrite Hl, Hi.
  now destruct (id =? "")%string.
Qed.

Lemma lookupSession_inherited (σ : State) (id : string) :
  sessions σ !! id = None -> inheritedMember id = true ->
  lookupSession σ (Some id) = Foreign.
Proof.
  intros Hl Hi. unfold lookupSession. rewrite Hl, Hi.
  destruct (id =? "")%string eqn:E; [| reflexivity].
  apply String.eqb_eq in E. subst. discriminate Hi.
Qed.

(** [handleSessionRequest] by itself does what is asked of the session
    channel: it forwards to the transport of a registered session and
    answers [400] to a missing or unknown session id (to one that names an
    inherited member of the table it throws), and it never touches the
    registry. *)
Lemma handleSessionRequest_spec (σ : State) (req : Request) :
  handleSessionRequest σ req =
  (σ, match lookupSession σ (sessionIdOf (header "mcp-session-id" req)) with
      | Found e => Forwarded (transport e)
      | Foreign => noTransport
      | Absent => Status 400 [] (Text "Invalid or missing session ID")
      end).
Proof. unfold handleSessionRequest. now destruct (lookupSession _ _). Qed.

(** The application, however, answers every GET and DELETE on [/mcp] from
    the two layers registered first. *)
Lemma serve_mcp_get_delete (isInitializeRequest : JsVal -> bool)
      (σ : State) (req : Request) (uuid : string) :
  routeMatches "/mcp" (path req) = true ->
  method req = GET \/ method req = DELETE ->
  serve isInitializeRequest σ req uuid = (σ, methodNotAllowed).
Proof.
  intros Hp Hm. unfold serve, app, dispatch, matches, MCP_PATH.
  cbn -[routeMatches]. rewrite Hp.
  destruct Hm as [-> | ->]; reflexivity.
Qed.

(** C1.  A GET or DELETE on [/mcp] that names a registered session is not
    forwarded to the session's transport, and one without a session header
    is not answered [400]: both get [405 Method Not Allowed] with
    [Allow: POST], because the two handlers registered first on that path
    end the response, so that [handleSessionRequest], registered after them
    for the same verbs and path, is never run. *)
Theorem mcp_get_delete_answered_405 :
  sessions oneSession !! "3f2a-01" = Some (mkEntry 0%nat 0%nat (Some []))
  /\ serve isInitialize oneSession (withSession GET "/mcp" "3f2a-01") "77c0-02"
     = (oneSession, methodNotAllowed)
  /\ serve isInitialize oneSession (withSession DELETE "/mcp" "3f2a-01") "77c0-02"
     = (oneSession, methodNotAllowed)
  /\ serve isInitialize oneSession (mkRequest GET "/mcp" [] JUndefined) "77c0-02"
     = (oneSession, methodNotAllowed)
  /\ handleSessionRequest oneSession (withSession GET "/mcp" "3f2a-01")
     = (oneSession, Forwarded 0%nat)
  /\ handleSessionRequest oneSession (mkRequest GET "/mcp" [] JUndefined)
     = (oneSession, Status 400 [] (Text "Invalid or missing session ID")).
Proof.
  split; [vm_compute; reflexivity |].
  split; [now apply serve_mcp_get_delete; [| left] |].
  split; [now apply serve_mcp_get_delete; [| right] |].
  split; [now apply serve_mcp_get_delete; [| left] |].
  split; rewrite handleSessionRequest_spec; vm_compute; reflexivity.
Qed.

(** C4.  The application registers no route for [/health]: a GET on it
    passes the two middlewares, matches no other layer, and is answered
    [404] by Express with its page "Cannot GET /health", in every state of
    the server. *)
Theorem health_answered_404 (isInitializeRequest : JsVal -> bool)
        (σ : State) (h : IncomingHttpHeaders) (b : JsVal) (uuid : string) :
  serve isInitializeRequest σ (mkRequest GET "/health" h b) uuid
  = (σ, NotFound GET "/health")
  /\ statusCode (snd (serve isInitializeRequest σ (mkRequest GET "/health" h b) uuid))
     = Some 404.
Proof. split; reflexivity. Qed.

(** ** Session registry *)

(** A request changes the state only when the POST handler creates a
    session. *)
Lemma serve_state (isInitializeRequest : JsVal -> bool)
      (σ : State) (req : Request) (uuid : string) :
  let n := length (transports σ) in
  fst (serve isInitializeRequest σ req uuid) = σ
  \/ fst (serve isInitializeRequest σ req uuid)
     = mkState (<[uuid := mkEntry n n None]> (sessions σ))
               (transports σ ++ [mkTransport None uuid n (headers req)])%list.
Proof.
  unfold serve, app, dispatch, matches, MCP_PATH. cbn -[routeMatches].
  destruct (method req); cbn -[routeMatches];
    destruct (routeMatches "/mcp" (path req)); cbn -[routeMatches]; auto.
  unfold postHandler.
  match goal with
  | |- context [lookupSession ?s ?i] => destruct (lookupSession s i)
  end; cbn -[routeMatches]; auto.
  match goal with
  | |- context [if ?b then _ else _] => destruct b
  end; cbn -[routeMatches]; auto.
Qed.

Lemma consistent_initial : consistent initial.
Proof.
  unfold consistent, initial. simpl. repeat split; intros *.
  - rewrite lookup_empty. discriminate.
  - rewrite lookup_nil. discriminate.
  - rewrite lookup_nil in H. discriminate.
  - rewrite lookup_nil in H. discriminate.
  - rewrite lookup_nil. discriminate.
Qed.

Lemma consistent_create (σ : State) (uuid : string) (h : IncomingHttpHeaders) :
  let n := length (transports σ) in
  consistent σ ->
  uuid <> "" -> inheritedMember uuid = false ->
  (forall tr, tr ∈ transports σ -> newSessionId tr <> uuid) ->
  consistent (mkState (<[uuid := mkEntry n n None]> (sessions σ))
                      (transports σ ++ [mkTransport None uuid n h])%list).
Proof.
  intros n (Hent & Hinj & Hid & Hown) Hne Hplain Hfresh.
  assert (Hnew : forall t tr,
             (transports σ ++ [mkTransport None uuid n h])%list !! t = Some tr ->
             transports σ !! t = Some tr
             \/ (t = n /\ tr = mkTransport None uuid n h)).
  { intros t tr Hl. apply lookup_app_Some in Hl as [Hl | [Hge Hl]]; [now left |].
    right. apply list_lookup_singleton_Some in Hl as [Hz <-].
    split; [unfold n; lia | reflexivity]. }
  unfold consistent. simpl. repeat split.
  - intros id e Hl. rewrite lookup_insert in Hl. case_decide as Hd.
    + inversion Hl; subst. simpl. exists (mkTransport None id n h).
      repeat split. rewrite lookup_app_r by (unfold n; lia).
      now replace (n - length (transports σ))%nat with 0%nat by (unfold n; lia).
    + destruct (Hent id e Hl) as (tr & Ht & Hn & Hs).
      exists tr. repeat split; auto. now apply lookup_app_l_Some.
  - intros t1 t2 tr1 tr2 H1 H2 Heq.
    apply Hnew in H1 as [H1 | [-> ->]]; apply Hnew in H2 as [H2 | [-> ->]];
      simpl in Heq.
    + now apply (Hinj t1 t2 tr1 tr2).
    + exfalso. eapply Hfresh; [eapply list_elem_of_lookup_2, H1 | exact Heq].
    + exfalso. eapply Hfresh; [eapply list_elem_of_lookup_2, H2 | now symmetry].
    + reflexivity.
  - apply Hnew in H as [H | [-> ->]]; [now apply (Hid t tr) | exact Hne].
  - intros id Hs. apply Hnew in H as [H | [-> ->]]; [| discriminate Hs].
    now apply (Hid t tr).
  - intros t tr Hl. apply Hnew in Hl as [Hl | [-> ->]];
      [now apply (Hown t tr) | exact Hplain].
Qed.

Lemma initialize_state (σ : State) (t : TransportRef)
      (tr : StreamableHTTPServerTransport) :
  transports σ !! t = Some tr ->
  let tr' := mkTransport (Some (newSessionId tr)) (newSessionId tr) (boundServer tr)
                         (initialHeaders tr) in
  initialize t σ
  = mkState (<[newSessionId tr := mkEntry (boundServer tr) t (Some (initialHeaders tr))]>
               (sessions σ))
            (<[t := tr']> (transports σ)).
Proof.
  intros Ht tr'. unfold initialize, onsessioninitialized. rewrite Ht. simpl.
  rewrite list_lookup_insert_eq by (eapply lookup_lt_Some, Ht). reflexivity.
Qed.

Lemma consistent_initialize (σ : State) (t : TransportRef) :
  consistent σ -> consistent (initialize t σ).
Proof.
  intros Hc.
  destruct (transports σ !! t) as [tr |] eqn:Ht;
    [| unfold initialize; rewrite Ht; exact Hc].
  destruct Hc as (Hent & Hinj & Hid & Hown).
  rewrite (initialize_state σ t tr Ht).
  set (tr' := mkTransport _ _ _ _).
  assert (Hupd : forall t0 x, <[t := tr']> (transports σ) !! t0 = Some x ->
             exists y, transports σ !! t0 = Some y
                       /\ newSessionId x = newSessionId y
                       /\ boundServer x = boundServer y
                       /\ (x = y \/ sessionId x = Some (newSessionId y))).
  { intros t0 x Hl. destruct (decide (t = t0)) as [<- | Hd].
    - rewrite list_lookup_insert_eq in Hl by (eapply lookup_lt_Some, Ht).
      inversion Hl; subst x. exists tr. repeat split; auto.
    - rewrite list_lookup_insert_ne in Hl by exact Hd. exists x. auto. }
  unfold consistent. simpl. repeat split.
  - intros id e Hl. rewrite lookup_insert in Hl. case_decide as Hd.
    + inversion Hl; subst. simpl. exists tr'.
      rewrite list_lookup_insert_eq by (eapply lookup_lt_Some, Ht). auto.
    + destruct (Hent id e Hl) as (y & Hy & Hn & Hs).
      destruct (decide (t = transport e)) as [Heq | Hd'].
      * exists tr'. rewrite <- Heq in Hy |- *.
        rewrite list_lookup_insert_eq by (eapply lookup_lt_Some, Ht).
        rewrite Ht in Hy. inversion Hy; subst y. auto.
      * exists y. rewrite list_lookup_insert_ne by exact Hd'. auto.
  - intros t1 t2 x1 x2 H1 H2 Heq.
    apply Hupd in H1 as (y1 & H1 & E1 & _). apply Hupd in H2 as (y2 & H2 & E2 & _).
    apply (Hinj t1 t2 y1 y2 H1 H2). congruence.
  - apply Hupd in H as (y & Hy & E & _). rewrite E. now apply (Hid t0 y).
  - intros id Hs. apply Hupd in H as (y & Hy & E & _ & [-> | Hx]).
    + now apply (Hid t0 y).
    + congruence.
  - intros t0 x Hl. apply Hupd in Hl as (y & Hy & E & _). rewrite E.
    now apply (Hown t0 y).
Qed.

Lemma onclose_state (σ : State) (t : TransportRef) :
  onclose t σ = σ
  \/ exists tr id, transports σ !! t = Some tr /\ sessionId tr = Some id
                   /\ onclose t σ = mkState (delete id (sessions σ)) (transports σ).
Proof.
  unfold onclose. destruct (transports σ !! t) as [tr |]; [| now left].
  destruct (sessionId tr) as [id |] eqn:Hs; [| now left].
  destruct (lookupSession σ (Some id)); [right; eauto | right; eauto | now left].
Qed.

Lemma consistent_onclose (σ : State) (t : TransportRef) :
  consistent σ -> consistent (onclose t σ).
Proof.
  intros Hc. destruct (onclose_state σ t) as [-> | (tr & id & _ & _ & ->)]; [exact Hc |].
  destruct Hc as (Hent & Hinj & Hid & Hown). unfold consistent. simpl.
  split; [| exact (conj Hinj (conj Hid Hown))].
  intros id' e Hl. apply lookup_delete_Some in Hl as [_ Hl]. now apply Hent.
Qed.

Lemma consistent_step (isInitializeRequest : JsVal -> bool) (σ : State) (ev : Event) :
  consistent σ -> admissible σ ev -> consistent (step isInitializeRequest σ ev).
Proof.
  intros Hc Ha. destruct ev as [req uuid | t | t]; simpl.
  - destruct Ha as (Hne & Hplain & Hfresh).
    destruct (serve_state isInitializeRequest σ req uuid) as [-> | ->]; [exact Hc |].
    now apply consistent_create.
  - now apply consistent_initialize.
  - now apply consistent_onclose.
Qed.

Lemma reachable_consistent (isInitializeRequest : JsVal -> bool) (σ : State) :
  reachable isInitializeRequest σ -> consistent σ.
Proof.
  induction 1 as [| σ ev _ IH Ha]; [apply consistent_initial |].
  now apply consistent_step.
Qed.

Lemma onclose_removes (σ : State) (t : TransportRef)
      (tr : StreamableHTTPServerTransport) (id : string) :
  transports σ !! t = Some tr -> sessionId tr = Some id -> id <> "" ->
  sessions (onclose t σ) !! id = None.
Proof.
  intros Ht Hs Hne. unfold onclose. rewrite Ht, Hs. unfold lookupSession.
  apply String.eqb_neq in Hne. rewrite Hne.
  destruct (sessions σ !! id) eqn:Hl; simpl; [apply lookup_delete_eq |].
  destruct (inheritedMember id); simpl; [apply lookup_delete_eq | exact Hl].
Qed.

Lemma oneSession_reachable : reachable isInitialize oneSession.
Proof.
  set (first := Incoming (mkRequest POST "/mcp" [] initializeBody) "3f2a-01").
  apply (reachable_step isInitialize (step isInitialize initial first)
                        (Initialized 0%nat)).
  - apply (reachable_step isInitialize initial first); [apply reachable_initial |].
    split; [discriminate |]. split; [reflexivity |].
    intros tr Hin. simpl in Hin. now apply elem_of_nil in Hin.
  - eexists. split; reflexivity.
Qed.

(** * Further properties of the code *)

(** ** Resource client *)

Lemma spread_keeps (a b : Headers) (h : string * string) :
  In h b -> In h (spread a b).
Proof. intros Hin. unfold spread. apply in_or_app. now right. Qed.

Lemma spread_default (a b : Headers) (k v : string) :
  In (k, v) a -> (forall v', ~ In (k, v') b) -> In (k, v) (spread a b).
Proof.
  intros Ha Hb. unfold spread. apply in_or_app. left.
  apply filter_In. split; [exact Ha |]. simpl.
  apply negb_true_iff. apply not_true_is_false. intros Hex.
  apply existsb_exists in Hex as ([k' v'] & Hin & Hk). simpl in Hk.
  apply String.eqb_eq in Hk. subst k'. exact (Hb v' Hin).
Qed.

(** X1.  Whatever the remote does, [makeHttpRequest] adds exactly one call
    to the trace, to the URL it was given; the call carries every header of
    the caller, and [Accept: application/json] unless the caller supplied an
    [Accept] header of its own. *)
Theorem makeHttpRequest_request (env : Env) (url : string) (headers : Headers)
        (calls : list HttpCall) :
  exists c,
    snd (makeHttpRequest env url headers calls) = (calls ++ [c])%list
    /\ call_url c = url
    /\ (forall h, In h headers -> In h (call_headers c))
    /\ ((forall v, ~ In ("Accept", v) headers) ->
        In ("Accept", "application/json") (call_headers c)).
Proof.
  rewrite makeHttpRequest_run. cbv zeta. simpl snd.
  eexists. split; [reflexivity |]. simpl. split; [reflexivity |]. split.
  - intros h Hin. now apply spread_keeps.
  - intros Hno. apply spread_default; [now left | exact Hno].
Qed.

Lemma makeHttpRequest_request_witness :
  exists c,
    snd (makeHttpRequest Examples.unreachable "https://hub.example/v1/myorg/nodes"
           [("Authorization", "Basic dXNlcjpwdw==")] [])
    = [c]
    /\ In ("Accept", "application/json") (call_headers c).
Proof.
  destruct (makeHttpRequest_request Examples.unreachable
              "https://hub.example/v1/myorg/nodes"
              [("Authorization", "Basic dXNlcjpwdw==")] [])
    as (c & Hc & _ & _ & Ha).
  exists c. split; [exact Hc |]. apply Ha.
  intros v [E | []]. discriminate E.
Defined.

(** X2.  [makeHttpRequest] returns the parsed body exactly when the remote
    answers 2xx with a body that parses; an HTTP error status, a network
    failure and a body that does not parse all give one and the same
    envelope, so a caller cannot tell them apart. *)
Theorem makeHttpRequest_outcomes (env : Env) (url : string) (headers : Headers) :
  let finalHeaders := spread [("Accept", "application/json")] headers in
  (forall r body,
      fetch env url finalHeaders = FetchResolved r ->
      ok r = true -> json r = JsonParsed body ->
      result (makeHttpRequest env url headers) = Returned body)
  /\ (forall r m,
         fetch env url finalHeaders = FetchResolved r ->
         ok r = true -> json r = JsonRejected m ->
         result (makeHttpRequest env url headers)
         = Returned (textResponse "An unknown error occurred."))
  /\ (forall r,
         fetch env url finalHeaders = FetchResolved r -> ok r = false ->
         result (makeHttpRequest env url headers)
         = Returned (textResponse "An unknown error occurred."))
  /\ (forall m,
         fetch env url finalHeaders = FetchRejected m ->
         result (makeHttpRequest env url headers)
         = Returned (textResponse "An unknown error occurred.")).
Proof.
  intros finalHeaders. unfold result, run. rewrite makeHttpRequest_run.
  cbv zeta. fold finalHeaders. simpl fst.
  repeat split.
  - intros r body -> -> ->. reflexivity.
  - intros r m -> -> ->. reflexivity.
  - intros r -> ->. reflexivity.
  - intros m ->. reflexivity.
Qed.

Lemma makeHttpRequest_outcomes_witness :
  result (makeHttpRequest
            (Examples.host (fun _ _ =>
               FetchResolved (mkResponse 200 "OK" (JsonRejected "Unexpected token <"))))
            "https://hub.example/v1/myorg/nodes" [])
  = Returned (textResponse "An unknown error occurred.")
  /\ result (makeHttpRequest (Examples.replying Examples.servicesBody)
               "https://hub.example/v1/myorg/services" [])
     = Returned Examples.servicesBody.
Proof.
  split.
  - apply (proj1 (proj2 (makeHttpRequest_outcomes _ _ _))
             (mkResponse 200 "OK" (JsonRejected "Unexpected token <"))
             "Unexpected token <"); reflexivity.
  - apply (proj1 (makeHttpRequest_outcomes _ _ _)
             (mkResponse 200 "OK" (JsonParsed Examples.servicesBody)));
      reflexivity.
Defined.

(** ** Action dispatcher *)

Lemma try_catch_returns {A} (m : Async A) (h : string -> Async A)
      (calls : list HttpCall) :
  (exists a, fst (m calls) = Returned a) -> try_catch m h calls = m calls.
Proof.
  intros [a Ha]. unfold try_catch. destruct (m calls) as [[a' | e] calls'];
    [reflexivity | discriminate Ha].
Qed.

Lemma makeHttpRequest_returns (env : Env) (url : string) (headers : Headers)
      (calls : list HttpCall) :
  exists v, fst (makeHttpRequest env url headers calls) = Returned v.
Proof. rewrite makeHttpRequest_run. simpl. eauto. Qed.

Ltac split_ifs :=
  repeat match goal with
         | |- context [if ?b then _ else _] => destruct b
         end.

Ltac count_calls :=
  async_unfold; cbv zeta; split_ifs;
  try rewrite makeHttpRequest_run; cbv beta iota zeta; cbn [snd fst];
  first [left; reflexivity | right; eexists; reflexivity].

(** X3.  A tool call makes at most one network call, whatever it is asked:
    the trace is left as it was or grows by one call, and that call goes to
    a URL under [EXCHANGE_URL/ORG] with the [Accept] and the Basic
    [Authorization] header. *)
Theorem toolCallback_calls (env : Env) (p : Params) (calls : list HttpCall) :
  snd (toolCallback env p calls) = calls
  \/ exists rest,
       snd (toolCallback env p calls)
       = (calls ++ [mkCall (orgUrl env +:+ rest) (requestHeaders env)])%list.
Proof.
  destruct p as [a t n pt d]. unfold toolCallback.
  destruct (a =? "list")%string; [unfold listResources; count_calls |].
  destruct (a =? "details")%string.
  { destruct (Js.absent n); [count_calls |].
    unfold getResourceDetails. generalize (overrideTarget pt t). intros t'.
    count_calls. }
  destruct (a =? "create")%string.
  { destruct (negb (Js.truthy d)); unfold createResource; count_calls. }
  destruct (a =? "delete")%string.
  { destruct (Js.absent n); unfold deleteResource; count_calls. }
  destruct (a =? "status")%string.
  { destruct (Js.absent n); unfold getResourceStatus; count_calls. }
  count_calls.
Qed.

(** X4.  An action outside the five known ones is answered with the error
    envelope without any network call; the envelope does not name the
    action. *)
Theorem toolCallback_unknown_action (env : Env) (p : Params) (calls : list HttpCall) :
  ~ In (action p) ["list"; "details"; "create"; "delete"; "status"] ->
  toolCallback env p calls
  = (Returned (textResponse "An unknown error occurred."), calls).
Proof.
  destruct p as [a t n pt d]. simpl. intros Hno. unfold toolCallback.
  repeat match goal with
         | |- context [(a =? ?s)%string] =>
             let E := fresh "E" in
             destruct (a =? s)%string eqn:E;
             [apply String.eqb_eq in E; exfalso; apply Hno; subst a; tauto |]
         end.
  reflexivity.
Qed.

Lemma toolCallback_unknown_action_witness :
  toolCallback Examples.notFound (mkParams "update" "node" (Some "n1") None JUndefined) []
  = (Returned (textResponse "An unknown error occurred."), []).
Proof.
  apply (toolCallback_unknown_action Examples.notFound
           (mkParams "update" "node" (Some "n1") None JUndefined) []).
  simpl. intros H. repeat destruct H as [H | H]; try discriminate H. exact H.
Defined.

(** X5.  [create] and [delete] never reach the network: whatever the
    target, name and data, they return an envelope and leave the trace of
    calls as it was. *)
Theorem create_delete_stay_local (env : Env) (p : Params) (calls : list HttpCall) :
  action p = "create" \/ action p = "delete" ->
  exists v,
    toolCallback env p calls = (Returned v, calls) /\ isToolResponse v = true.
Proof.
  destruct p as [a t n pt d]. simpl. unfold toolCallback.
  intros [-> | ->]; simpl.
  - destruct (Js.truthy d); simpl; eexists; split; reflexivity.
  - destruct (Js.absent n); simpl; eexists; split; reflexivity.
Qed.

Lemma create_delete_stay_local_witness :
  exists v,
    toolCallback Examples.unreachable
      (mkParams "delete" "service" (Some "web") None JUndefined) []
    = (Returned v, [])
    /\ isToolResponse v = true.
Proof.
  apply (create_delete_stay_local Examples.unreachable
           (mkParams "delete" "service" (Some "web") None JUndefined) []).
  right. reflexivity.
Defined.

(** X6.  [status] with a name: for [target = "node"] the call is the
    client's request to the node's status endpoint, handed back as the
    client returns it; for any other target nothing is requested and a
    placeholder envelope is returned. *)
Theorem status_routing (env : Env) (t n : string) (pt : option string) (d : JsVal)
        (calls : list HttpCall) :
  n <> "" ->
  (t = "node" ->
   toolCallback env (mkParams "status" t (Some n) pt d) calls
   = makeHttpRequest env (orgUrl env +:+ "/nodes/" +:+ n +:+ "/status")
       (authorization env) calls)
  /\ (t <> "node" ->
      toolCallback env (mkParams "status" t (Some n) pt d) calls
      = (Returned (textResponse ("Status for " +:+ t +:+ " named " +:+ n)), calls)).
Proof.
  intros Hn. apply String.eqb_neq in Hn.
  unfold toolCallback, getResourceStatus.
  cbn -[String.eqb makeHttpRequest String.append]. rewrite Hn.
  change ("status" =? "list")%string with false.
  change ("status" =? "details")%string with false.
  change ("status" =? "create")%string with false.
  change ("status" =? "delete")%string with false.
  change ("status" =? "status")%string with true.
  cbv iota. split.
  - intros ->. reflexivity.
  - intros Ht. apply String.eqb_neq in Ht. rewrite Ht. reflexivity.
Qed.

Lemma status_routing_witness :
  calls_of (toolCallback Examples.notFound
              (mkParams "status" "node" (Some "n1") None JUndefined))
  = [mkCall "https://hub.example/v1/myorg/nodes/n1/status"
            [("Accept", "application/json"); ("Authorization", "Basic dXNlcjpwdw==")]]
  /\ run (toolCallback Examples.notFound
            (mkParams "status" "service" (Some "web") None JUndefined))
     = (Returned (textResponse "Status for service named web"), []).
Proof.
  assert (H1 : "n1" <> "") by discriminate.
  assert (H2 : "web" <> "") by discriminate.
  assert (H3 : "service" <> "node") by discriminate.
  split.
  - unfold calls_of, run.
    rewrite (proj1 (status_routing Examples.notFound "node" "n1" None JUndefined [] H1)
                   eq_refl).
    reflexivity.
  - exact (proj2 (status_routing Examples.notFound "service" "web" None JUndefined [] H2)
                 H3).
Defined.

Lemma equals_true (s : option string) (lit : string) :
  Js.equals s lit = true -> s = Some lit.
Proof.
  destruct s as [s |]; simpl; [| discriminate].
  intros E. apply String.eqb_eq in E. now subst.
Qed.

Lemma equals_absent (s : option string) (lit : string) :
  Js.absent s = true -> lit <> "" -> Js.equals s lit = false.
Proof.
  destruct s as [s |]; simpl; [| reflexivity].
  intros E Hl. apply String.eqb_eq in E. subst s.
  apply String.eqb_neq. congruence.
Qed.

Lemma overrideTarget_absent (policyType : option string) (target : string) :
  Js.absent policyType = true -> overrideTarget policyType target = target.
Proof. intros Hp. unfold overrideTarget. now rewrite Hp. Qed.

(** With a name, [toolCallback] hands a [details] request on to
    [getResourceDetails], whose own checks for a missing name then never
    apply. *)
Lemma details_with_name (env : Env) (t n : string) (pt : option string) (d : JsVal) :
  n <> "" ->
  toolCallback env (mkParams "details" t (Some n) pt d)
  = getResourceDetails env t (Some n) pt
  /\ Js.absent (Some n) = false.
Proof.
  intros Hn. apply String.eqb_neq in Hn. unfold toolCallback.
  change ("details" =? "list")%string with false.
  change ("details" =? "details")%string with true.
  cbv iota. unfold Js.absent. now rewrite Hn.
Qed.

(** X7.  The endpoint of a [details] request with a name, which the
    resource client's answer is handed back from untouched: by policy type
    when one is supplied (whatever the target), else by target.  A node's
    details are the whole [node-details] collection, whatever the name. *)
Theorem details_routing (env : Env) (t n : string) (pt : option string) (d : JsVal)
        (calls : list HttpCall) :
  n <> "" ->
  let answer := toolCallback env (mkParams "details" t (Some n) pt d) calls in
  let request url := makeHttpRequest env (orgUrl env +:+ url) (authorization env) calls in
  (pt = Some "node" -> answer = request ("/nodes/" +:+ n +:+ "/policy"))
  /\ (pt = Some "service" -> answer = request ("/business/policies/" +:+ n))
  /\ (pt = Some "deployment" -> answer = request ("/services/" +:+ n +:+ "/policy"))
  /\ (Js.absent pt = true -> t = "policy" -> answer = request "/business/policies")
  /\ (Js.absent pt = true -> t = "service" -> answer = request ("/services/" +:+ n))
  /\ (Js.absent pt = true -> t = "node" -> answer = request "/node-details")
  /\ (Js.absent pt = true -> knownTarget t = false ->
      answer = request ("/" +:+ t +:+ "s")).
Proof.
  intros Hn answer request. subst answer request.
  destruct (details_with_name env t n pt d Hn) as [-> Hname].
  assert (Hreturns : forall url, exists v,
             fst (makeHttpRequest env url (authorization env) calls) = Returned v)
    by (intros; apply makeHttpRequest_returns).
  unfold getResourceDetails.
  repeat split.
  - intros ->. rewrite overrideTarget_supplied by reflexivity.
    rewrite Hname. cbn -[makeHttpRequest String.append].
    now apply try_catch_returns.
  - intros ->. rewrite overrideTarget_supplied by reflexivity.
    rewrite Hname. cbn -[makeHttpRequest String.append].
    now apply try_catch_returns.
  - intros ->. rewrite overrideTarget_supplied by reflexivity.
    rewrite Hname. cbn -[makeHttpRequest String.append].
    now apply try_catch_returns.
  - intros Hp ->. rewrite overrideTarget_absent by exact Hp.
    rewrite !(equals_absent pt) by (exact Hp || discriminate).
    cbn -[makeHttpRequest String.append]. now apply try_catch_returns.
  - intros Hp ->. rewrite overrideTarget_absent by exact Hp.
    rewrite Hname. cbn -[makeHttpRequest String.append].
    now apply try_catch_returns.
  - intros Hp ->. rewrite overrideTarget_absent by exact Hp.
    cbn -[makeHttpRequest String.append]. now apply try_catch_returns.
  - intros Hp Hk. rewrite overrideTarget_absent by exact Hp.
    unfold knownTarget in Hk. cbn [existsb] in Hk.
    apply orb_false_elim in Hk as [Hs Hk].
    apply orb_false_elim in Hk as [Hnode Hk].
    apply orb_false_elim in Hk as [Hpol _].
    cbv zeta. rewrite Hpol, Hs, Hnode. now apply try_catch_returns.
Qed.

Lemma details_routing_witness :
  calls_of (toolCallback Examples.notFound
              (mkParams "details" "node" (Some "edge-1") None JUndefined))
  = [mkCall "https://hub.example/v1/myorg/node-details"
            [("Accept", "application/json"); ("Authorization", "Basic dXNlcjpwdw==")]]
  /\ calls_of (toolCallback Examples.notFound
                 (mkParams "details" "service" (Some "p1") (Some "deployment") JUndefined))
     = [mkCall "https://hub.example/v1/myorg/services/p1/policy"
               [("Accept", "application/json"); ("Authorization", "Basic dXNlcjpwdw==")]].
Proof.
  assert (H1 : "edge-1" <> "") by discriminate.
  assert (H2 : "p1" <> "") by discriminate.
  pose proof (details_routing Examples.notFound "node" "edge-1" None JUndefined [] H1)
    as (_ & _ & _ & _ & _ & Hnode & _).
  pose proof (details_routing Examples.notFound "service" "p1" (Some "deployment")
                JUndefined [] H2)
    as (_ & _ & Hdep & _).
  split; unfold calls_of, run.
  - rewrite (Hnode eq_refl eq_refl). reflexivity.
  - rewrite (Hdep eq_refl). reflexivity.
Defined.

Lemma wrapListResponse_has_content (env : Env) (response : JsVal) :
  Js.has_key "content" (wrapListResponse env response) = true.
Proof.
  unfold wrapListResponse.
  destruct (Js.has_key "content" response) eqn:E.
  - destruct response; try discriminate E. exact E.
  - rewrite andb_false_r. reflexivity.
Qed.

(** X8.  Whatever [listResources] returns has a top-level [content]
    property: a placeholder, the remote body when it has one itself, or
    else a text envelope around the serialized reply. *)
Theorem listResources_has_content (env : Env) (target : string)
        (name policyType : option string) (calls : list HttpCall) (v : JsVal) :
  fst (listResources env target name policyType calls) = Returned v ->
  Js.has_key "content" v = true.
Proof.
  unfold listResources. async_unfold. cbv zeta. split_ifs;
    try rewrite makeHttpRequest_run; cbv beta iota zeta; cbn [fst];
    intros E; inversion E; subst;
    first [apply wrapListResponse_has_content | reflexivity].
Qed.

Lemma listResources_has_content_witness :
  Js.has_key "content" (textResponse "{}") = true.
Proof.
  apply (listResources_has_content (Examples.replying (JObj [])) "node" None None []).
  reflexivity.
Defined.

(** X9.  For a target other than [policy], [listResources] pays no
    attention to the name and the policy type: the request and the result
    are those of the collection, whatever they are. *)
Theorem listResources_ignores_name (env : Env) (target : string)
        (name name' policyType policyType' : option string) (calls : list HttpCall) :
  target <> "policy" ->
  listResources env target name policyType calls
  = listResources env target name' policyType' calls.
Proof.
  intros Ht. apply String.eqb_neq in Ht. unfold listResources.
  rewrite Ht. reflexivity.
Qed.

Lemma listResources_ignores_name_witness :
  listResources Examples.notFound "node" (Some "edge-1") (Some "node") []
  = listResources Examples.notFound "node" None None [].
Proof.
  apply (listResources_ignores_name Examples.notFound "node").
  discriminate.
Defined.

(** X10.  Configuration that is not set is not noticed: a tool call runs
    with [EXCHANGE_URL], [EXCHANGE_ORG] or [EXCHANGE_CREDENTIAL] unset
    exactly as it runs with the variable set to the text [undefined], the
    same requests included. *)
Theorem unset_configuration (env : Env) (p : Params) (calls : list HttpCall) :
  toolCallback env p calls
  = toolCallback
      (mkEnv (Some (Js.tpl (EXCHANGE_URL env))) (Some (Js.tpl (ORG env)))
             (Some (Js.tpl (EXCHANGE_CREDENTIAL env)))
             (fetch env) (JSON_stringify env))
      p calls.
Proof.
  destruct env as [[u |] [o |] [c |] f j]; reflexivity.
Qed.

(** ** The parameter schema *)

Lemma enum_Some (options : list string) (v : JsVal) (s : string) :
  z.enum options v = Some s -> v = JStr s /\ In s options.
Proof.
  unfold z.enum. destruct v; try discriminate.
  destruct (existsb (String.eqb s0) options) eqn:E; [| discriminate].
  intros H. inversion H; subst. split; [reflexivity |].
  apply existsb_exists in E as (x & Hin & Hx).
  apply String.eqb_eq in Hx. now subst.
Qed.

Lemma optional_enum_Some (options : list string) (v : JsVal) (o : option string) :
  z.optional (z.enum options) v = Some o ->
  (o = None /\ v = JUndefined)
  \/ (exists s, o = Some s /\ v = JStr s /\ In s options).
Proof.
  unfold z.optional. intros H.
  destruct (z.enum options v) as [s |] eqn:E.
  - apply enum_Some in E as [-> Hin]. simpl in H. inversion H; subst. eauto.
  - destruct v; simpl in H; try discriminate H.
    inversion H. auto.
Qed.

Lemma blankToUndefined_undefined (v : JsVal) :
  blankToUndefined v = JUndefined <-> v = JUndefined \/ v = JNull \/ v = JStr "".
Proof.
  unfold blankToUndefined. destruct v; try (intuition congruence).
  destruct (s =? "")%string eqn:E.
  - apply String.eqb_eq in E. subst. intuition.
  - apply String.eqb_neq in E. intuition congruence.
Qed.

Lemma toolParamsSchema_fields (args : JsVal) (p : Params) :
  toolParamsSchema args = Some p ->
  exists props,
    args = JObj props
    /\ z.enum ["list"; "details"; "create"; "delete"; "status"]
              (property "action" props) = Some (action p)
    /\ z.enum ["service"; "node"; "policy"] (property "target" props)
       = Some (target p)
    /\ z.optional (z.enum ["node"; "service"; "deployment"])
                  (blankToUndefined (property "policyType" props))
       = Some (policyType p)
    /\ z.optional z.string (property "name" props) = Some (name p)
    /\ data p = property "data" props.
Proof.
  unfold toolParamsSchema. destruct args as [| | | | | | props |]; try discriminate.
  unfold z.preprocess.
  destruct (z.enum _ (property "action" props)) as [a |] eqn:Ea; [| discriminate].
  destruct (z.enum _ (property "target" props)) as [t |] eqn:Et; [| discriminate].
  destruct (z.optional (z.enum _) _) as [pt |] eqn:Ep; [| discriminate].
  destruct (z.optional z.string _) as [n |] eqn:En; [| discriminate].
  simpl. intros H. exists props.
  destruct (property "data" props) eqn:Ed; simpl in H; inversion H; subst;
    simpl; repeat split; assumption || reflexivity.
Qed.

Lemma toolCallback_returns (env : Env) (p : Params) (calls : list HttpCall) :
  knownTarget (target p) = true ->
  exists v, fst (toolCallback env p calls) = Returned v.
Proof.
  destruct p as [a t n pt d]. simpl. intros Hk. unfold toolCallback.
  destruct (a =? "list")%string; [now apply listResources_returns |].
  destruct (a =? "details")%string.
  { destruct (Js.absent n); [async_unfold; simpl; eauto |].
    apply getResourceDetails_returns. }
  destruct (a =? "create")%string.
  { destruct (negb (Js.truthy d)); unfold createResource; async_unfold; simpl; eauto. }
  destruct (a =? "delete")%string.
  { destruct (Js.absent n); unfold deleteResource; async_unfold; simpl; eauto. }
  destruct (a =? "status")%string.
  { destruct (Js.absent n); [async_unfold; simpl; eauto |].
    apply getResourceStatus_returns. }
  async_unfold. simpl. eauto.
Qed.

(** X11.  What [toolParamsSchema] accepts: an object whose action is one of
    the five and whose target is one of the three; the accepted policy type
    is one of [node], [service], [deployment] or absent, and it is absent
    exactly when the argument is missing, [null] or the empty string. *)
Theorem toolParamsSchema_accepts (args : JsVal) (p : Params) :
  toolParamsSchema args = Some p ->
  In (action p) ["list"; "details"; "create"; "delete"; "status"]
  /\ In (target p) ["service"; "node"; "policy"]
  /\ (forall s, policyType p = Some s -> In s ["node"; "service"; "deployment"])
  /\ (forall props, args = JObj props ->
        (policyType p = None <->
         property "policyType" props = JUndefined
         \/ property "policyType" props = JNull
         \/ property "policyType" props = JStr "")).
Proof.
  intros H. apply toolParamsSchema_fields in H
    as (props & -> & Ha & Ht & Hp & _ & _).
  apply enum_Some in Ha as [_ Ha]. apply enum_Some in Ht as [_ Ht].
  repeat split; try assumption.
  - intros s Hs. rewrite Hs in Hp.
    apply optional_enum_Some in Hp as [[Hn _] | (s' & Hs' & _ & Hin)];
      [discriminate Hn |].
    now inversion Hs'; subst.
  - intros Hnone. inversion H; subst props0. rewrite Hnone in Hp.
    apply optional_enum_Some in Hp as [[_ Hu] | (s' & Hs' & _)];
      [| discriminate Hs'].
    now apply blankToUndefined_undefined.
  - intros Hblank. inversion H; subst props0.
    apply blankToUndefined_undefined in Hblank. rewrite Hblank in Hp.
    simpl in Hp. congruence.
Qed.

Lemma toolParamsSchema_accepts_witness :
  In "policy" ["service"; "node"; "policy"]
  /\ (policyType (mkParams "list" "policy" None None JUndefined) = None <->
      JStr "" = JUndefined \/ JStr "" = JNull \/ JStr "" = JStr "").
Proof.
  pose proof (toolParamsSchema_accepts
                (JObj [("action", JStr "list"); ("target", JStr "policy");
                       ("policyType", JStr "")])
                (mkParams "list" "policy" None None JUndefined) eq_refl)
    as (_ & Ht & _ & Hp).
  split; [exact Ht |].
  exact (Hp _ eq_refl).
Defined.

(** X12.  A call whose arguments pass [toolParamsSchema] never makes
    [toolCallback] throw: it settles with a value. *)
Theorem validated_call_settles (env : Env) (args : JsVal) (p : Params)
        (calls : list HttpCall) :
  toolParamsSchema args = Some p ->
  exists v, fst (toolCallback env p calls) = Returned v.
Proof.
  intros H. apply toolParamsSchema_fields in H as (props & _ & _ & Ht & _).
  apply enum_Some in Ht as [_ Ht].
  apply toolCallback_returns. apply knownTarget_iff.
  simpl in Ht. intuition.
Qed.

Lemma validated_call_settles_witness :
  exists v,
    fst (toolCallback Examples.unreachable
           (mkParams "list" "service" None None (JObj [])) [])
    = Returned v.
Proof.
  apply (validated_call_settles Examples.unreachable
           (JObj [("action", JStr "list"); ("target", JStr "service");
                  ("policyType", JNull); ("data", JObj [])])).
  reflexivity.
Defined.

(** ** Request router *)

Lemma serve_post_route (isInitializeRequest : JsVal -> bool)
      (σ : State) (req : Request) (uuid : string) :
  method req = POST -> routeMatches "/mcp" (path req) = true ->
  serve isInitializeRequest σ req uuid = postHandler isInitializeRequest σ req uuid.
Proof.
  intros Hm Hp. unfold serve, app, dispatch, matches, MCP_PATH.
  cbn -[routeMatches postHandler]. rewrite Hm, Hp.
  cbn -[postHandler]. now destruct (postHandler _ _ _ _).
Qed.

Lemma serve_post (isInitializeRequest : JsVal -> bool)
      (σ : State) (req : Request) (uuid : string) :
  method req = POST -> path req = "/mcp" ->
  serve isInitializeRequest σ req uuid = postHandler isInitializeRequest σ req uuid.
Proof.
  intros Hm Hp. apply serve_post_route; [exact Hm |]. now rewrite Hp.
Qed.

Lemma serve_elsewhere (isInitializeRequest : JsVal -> bool)
      (σ : State) (req : Request) (uuid : string) :
  routeMatches "/mcp" (path req) = false ->
  serve isInitializeRequest σ req uuid = (σ, finalhandler req).
Proof.
  intros E. unfold serve, app, dispatch, matches, MCP_PATH. cbn -[routeMatches].
  rewrite E. rewrite !andb_false_r. reflexivity.
Qed.

Lemma serve_put (isInitializeRequest : JsVal -> bool)
      (σ : State) (req : Request) (uuid : string) :
  method req = PUT ->
  serve isInitializeRequest σ req uuid = (σ, finalhandler req).
Proof.
  intros Hm. unfold serve, app, dispatch, matches. cbn -[routeMatches].
  rewrite Hm. reflexivity.
Qed.

Lemma routeMatches_mcp_iff (p : string) :
  routeMatches "/mcp" p = true
  <-> toLowerCase p = "/mcp" \/ toLowerCase p = "/mcp/".
Proof.
  unfold routeMatches. rewrite orb_true_iff, !String.eqb_eq. reflexivity.
Qed.

(** X13.  A POST on [/mcp] that does not initiate a session and names no
    registered one.  With a session id that is neither registered nor the
    name of a member the table inherits from [Object.prototype], it is
    answered [400] with the JSON-RPC error [-32000], whatever its body (an
    initialize message included); so it is with no session header and a
    body that is not an initialize message.  With a session id such as
    [constructor], which is not registered but reads as an inherited member,
    the handler takes it for a session and throws for want of a transport.
    In every case the registry is left as it was. *)
Theorem post_rejected (isInitializeRequest : JsVal -> bool)
        (σ : State) (req : Request) (uuid : string) :
  method req = POST -> path req = "/mcp" ->
  (forall id, header "mcp-session-id" req = Some (HString id) ->
              id <> "" -> sessions σ !! id = None -> inheritedMember id = false ->
              serve isInitializeRequest σ req uuid = (σ, badRequest))
  /\ (header "mcp-session-id" req = None ->
      isInitializeRequest (body req) = false ->
      serve isInitializeRequest σ req uuid = (σ, badRequest))
  /\ (forall id, header "mcp-session-id" req = Some (HString id) ->
                 sessions σ !! id = None -> inheritedMember id = true ->
                 serve isInitializeRequest σ req uuid
                 = (σ, Failed "Cannot read properties of undefined (reading 'handleRequest')")).
Proof.
  intros Hm Hp. rewrite (serve_post _ _ _ _ Hm Hp). unfold postHandler.
  split; [| split].
  - intros id Hh Hne Hl Hi. rewrite Hh. cbn [sessionIdOf].
    rewrite (lookupSession_unknown _ _ Hl Hi). cbn [headerFalsy].
    apply String.eqb_neq in Hne. now rewrite Hne.
  - intros Hh Hi. rewrite Hh. simpl. rewrite Hi. reflexivity.
  - intros id Hh Hl Hi. rewrite Hh. cbn [sessionIdOf].
    now rewrite (lookupSession_inherited _ _ Hl Hi).
Qed.

Lemma post_rejected_witness :
  serve isInitialize oneSession (mkRequest POST "/mcp"
          [("mcp-session-id", HString "gone")] initializeBody) "77c0-02"
  = (oneSession, badRequest)
  /\ serve isInitialize oneSession (mkRequest POST "/mcp" []
             (JObj [("method", JStr "tools/list")])) "77c0-02"
     = (oneSession, badRequest)
  /\ serve isInitialize oneSession (mkRequest POST "/mcp"
             [("mcp-session-id", HString "constructor")] initializeBody) "77c0-02"
     = (oneSession, Failed "Cannot read properties of undefined (reading 'handleRequest')").
Proof.
  split; [| split].
  - apply (proj1 (post_rejected isInitialize oneSession
                    (mkRequest POST "/mcp" [("mcp-session-id", HString "gone")]
                               initializeBody)
                    "77c0-02" eq_refl eq_refl) "gone");
      [reflexivity | discriminate | vm_compute; reflexivity | reflexivity].
  - apply (proj1 (proj2 (post_rejected isInitialize oneSession
                    (mkRequest POST "/mcp" [] (JObj [("method", JStr "tools/list")]))
                    "77c0-02" eq_refl eq_refl))); reflexivity.
  - apply (proj2 (proj2 (post_rejected isInitialize oneSession
                    (mkRequest POST "/mcp" [("mcp-session-id", HString "constructor")]
                               initializeBody)
                    "77c0-02" eq_refl eq_refl)) "constructor");
      [reflexivity | vm_compute; reflexivity | reflexivity].
Defined.

(** X14.  A POST on [/mcp] that names a registered session is handed to
    that session's transport and changes nothing in the registry, even when
    its body is an initialize message; of a header given as a list, the
    first element is the session id. *)
Theorem post_known_session (isInitializeRequest : JsVal -> bool)
        (σ : State) (req : Request) (uuid id : string) (e : SessionEntry) :
  method req = POST -> path req = "/mcp" ->
  id <> "" -> sessions σ !! id = Some e ->
  header "mcp-session-id" req = Some (HString id)
  \/ (exists more, header "mcp-session-id" req = Some (HArray (id :: more))) ->
  serve isInitializeRequest σ req uuid = (σ, Forwarded (transport e)).
Proof.
  intros Hm Hp Hne Hl Hh. rewrite (serve_post _ _ _ _ Hm Hp). unfold postHandler.
  apply String.eqb_neq in Hne.
  destruct Hh as [-> | [more ->]]; simpl; rewrite Hne, Hl; reflexivity.
Qed.

Lemma post_known_session_witness :
  serve isInitialize oneSession (withSession POST "/mcp" "3f2a-01") "77c0-02"
  = (oneSession, Forwarded 0%nat).
Proof.
  apply (post_known_session isInitialize oneSession
           (withSession POST "/mcp" "3f2a-01") "77c0-02" "3f2a-01"
           (mkEntry 0%nat 0%nat (Some [])));
    [reflexivity | reflexivity | discriminate | vm_compute; reflexivity
    | left; reflexivity].
Defined.

(** X15.  A POST on [/mcp] without a session id (no header, or an empty
    one) whose body is an initialize message constructs a transport that
    has no session id yet, files it with its server under the identifier
    [randomUUID] returned, replacing whatever was filed there, leaves every
    other identifier as it was, and hands the request to the new
    transport. *)
Theorem post_initiates (isInitializeRequest : JsVal -> bool)
        (σ : State) (req : Request) (uuid : string) :
  method req = POST -> path req = "/mcp" ->
  header "mcp-session-id" req = None
  \/ header "mcp-session-id" req = Some (HString "") ->
  isInitializeRequest (body req) = true ->
  let n := length (transports σ) in
  let '(σ', reply) := serve isInitializeRequest σ req uuid in
  reply = Forwarded n
  /\ sessions σ' !! uuid = Some (mkEntry n n None)
  /\ transports σ' !! n = Some (mkTransport None uuid n (headers req))
  /\ (forall id, id <> uuid -> sessions σ' !! id = sessions σ !! id)
  /\ (forall t, (t < n)%nat -> transports σ' !! t = transports σ !! t).
Proof.
  intros Hm Hp Hh Hi n. rewrite (serve_post _ _ _ _ Hm Hp). unfold postHandler.
  assert (E : lookupSession σ (sessionIdOf (header "mcp-session-id" req)) = Absent
              /\ headerFalsy (header "mcp-session-id" req) = true)
    by (destruct Hh as [-> | ->]; split; reflexivity).
  destruct E as [-> ->]. rewrite Hi. cbn [andb]. cbv zeta.
  fold n. cbn [sessions transports].
  split; [reflexivity |]. split; [apply lookup_insert_eq |]. split.
  - rewrite lookup_app_r by (unfold n; lia).
    now replace (n - length (transports σ))%nat with 0%nat by (unfold n; lia).
  - split.
    + intros id Hne. now apply lookup_insert_ne.
    + intros t Ht. apply lookup_app_l. exact Ht.
Qed.

Lemma post_initiates_witness :
  let '(σ', reply) :=
    serve isInitialize oneSession
      (mkRequest POST "/mcp" [("mcp-session-id", HString "")] initializeBody)
      "77c0-02" in
  reply = Forwarded 1%nat
  /\ sessions σ' !! "77c0-02" = Some (mkEntry 1%nat 1%nat None)
  /\ sessions σ' !! "3f2a-01" = Some (mkEntry 0%nat 0%nat (Some [])).
Proof.
  pose proof (post_initiates isInitialize oneSession
                (mkRequest POST "/mcp" [("mcp-session-id", HString "")] initializeBody)
                "77c0-02" eq_refl eq_refl (or_intror eq_refl) eq_refl) as H.
  cbv zeta in H.
  destruct (serve isInitialize oneSession _ "77c0-02") as [σ' reply].
  destruct H as (Hr & Hnew & _ & Hother & _).
  split; [exact Hr |]. split; [exact Hnew |].
  rewrite Hother by discriminate. vm_compute. reflexivity.
Defined.

(** X16.  A request whose path is not [/mcp], a trailing slash and the
    case of letters apart, and a PUT to any path, finds no route: Express
    answers [404] with its page for the verb and path, and the registry is
    left as it was. *)
Theorem unrouted_requests (isInitializeRequest : JsVal -> bool)
        (σ : State) (req : Request) (uuid : string) :
  (toLowerCase (path req) <> "/mcp" /\ toLowerCase (path req) <> "/mcp/")
  \/ method req = PUT ->
  serve isInitializeRequest σ req uuid = (σ, NotFound (method req) (path req))
  /\ statusCode (snd (serve isInitializeRequest σ req uuid)) = Some 404.
Proof.
  intros H.
  assert (E : serve isInitializeRequest σ req uuid = (σ, finalhandler req)).
  { destruct H as [[H1 H2] | Hm]; [| now apply serve_put].
    apply serve_elsewhere. apply not_true_is_false.
    rewrite routeMatches_mcp_iff. tauto. }
  rewrite E. split; reflexivity.
Qed.

Lemma unrouted_requests_witness :
  serve isInitialize oneSession (withSession PUT "/mcp" "3f2a-01") "77c0-02"
  = (oneSession, NotFound PUT "/mcp")
  /\ serve isInitialize oneSession (withSession POST "/mcp/v2" "3f2a-01") "77c0-02"
     = (oneSession, NotFound POST "/mcp/v2").
Proof.
  split.
  - apply (unrouted_requests isInitialize oneSession
             (withSession PUT "/mcp" "3f2a-01") "77c0-02").
    right. reflexivity.
  - apply (unrouted_requests isInitialize oneSession
             (withSession POST "/mcp/v2" "3f2a-01") "77c0-02").
    left. split; discriminate.
Defined.

(** X17.  A session-id header given as a list never initiates a session:
    when the list is empty, or its first element is empty or names neither
    a registered session nor an inherited member of the table, a POST on
    [/mcp] is answered [400] even with an initialize body, and the registry
    is left as it was. *)
Theorem post_list_header (isInitializeRequest : JsVal -> bool)
        (σ : State) (req : Request) (uuid : string) (ids : list string) :
  method req = POST -> path req = "/mcp" ->
  header "mcp-session-id" req = Some (HArray ids) ->
  ids = []
  \/ (exists id more,
         ids = id :: more
         /\ (id = "" \/ (sessions σ !! id = None /\ inheritedMember id = false))) ->
  serve isInitializeRequest σ req uuid = (σ, badRequest).
Proof.
  intros Hm Hp Hh Hids. rewrite (serve_post _ _ _ _ Hm Hp). unfold postHandler.
  rewrite Hh. cbn [sessionIdOf headerFalsy andb].
  assert (E : lookupSession σ (head ids) = Absent).
  { destruct Hids as [-> | (id & more & -> & [-> | [Hl Hi]])]; [reflexivity | reflexivity |].
    now apply lookupSession_unknown. }
  now rewrite E.
Qed.

Lemma post_list_header_witness :
  serve isInitialize oneSession
    (mkRequest POST "/mcp" [("mcp-session-id", HArray ["gone"; "3f2a-01"])] initializeBody)
    "77c0-02"
  = (oneSession, badRequest)
  /\ serve isInitialize oneSession
       (mkRequest POST "/mcp" [("mcp-session-id", HArray [])] initializeBody) "77c0-02"
     = (oneSession, badRequest).
Proof.
  split.
  - apply (post_list_header isInitialize oneSession
             (mkRequest POST "/mcp" [("mcp-session-id", HArray ["gone"; "3f2a-01"])]
                        initializeBody)
             "77c0-02" ["gone"; "3f2a-01"] eq_refl eq_refl eq_refl).
    right. exists "gone", ["3f2a-01"]. split; [reflexivity |].
    right. split; [vm_compute; reflexivity | reflexivity].
  - apply (post_list_header isInitialize oneSession
             (mkRequest POST "/mcp" [("mcp-session-id", HArray [])] initializeBody)
             "77c0-02" [] eq_refl eq_refl eq_refl).
    left. reflexivity.
Defined.

(** ** Session registry *)

Lemma serve_creates (isInitializeRequest : JsVal -> bool)
      (σ : State) (req : Request) (uuid : string) :
  method req = POST -> path req = "/mcp" ->
  header "mcp-session-id" req = None
  \/ header "mcp-session-id" req = Some (HString "") ->
  isInitializeRequest (body req) = true ->
  let n := length (transports σ) in
  serve isInitializeRequest σ req uuid
  = (mkState (<[uuid := mkEntry n n None]> (sessions σ))
             (transports σ ++ [mkTransport None uuid n (headers req)])%list,
     Forwarded n).
Proof.
  intros Hm Hp Hh Hi n. rewrite (serve_post _ _ _ _ Hm Hp). unfold postHandler.
  assert (E : lookupSession σ (sessionIdOf (header "mcp-session-id" req)) = Absent
              /\ headerFalsy (header "mcp-session-id" req) = true)
    by (destruct Hh as [-> | ->]; split; reflexivity).
  destruct E as [-> ->]. rewrite Hi. reflexivity.
Qed.

Lemma lookup_snoc {A} (l : list A) (x : A) : (l ++ [x])%list !! length l = Some x.
Proof.
  rewrite lookup_app_r by lia.
  now replace (length l - length l)%nat with 0%nat by lia.
Qed.

(** X18.  In every state the server can reach, the close signal of a
    transport removes no entry but its own: an entry bound to another
    transport is still there afterwards, unchanged. *)
Theorem onclose_spares_others (isInitializeRequest : JsVal -> bool)
        (σ : State) (t : TransportRef) (id : string) (e : SessionEntry) :
  reachable isInitializeRequest σ ->
  sessions σ !! id = Some e -> transport e <> t ->
  sessions (onclose t σ) !! id = Some e.
Proof.
  intros Hr He Hne.
  pose proof (reachable_consistent _ _ Hr) as (Hent & Hinj & Hid & Hown).
  destruct (onclose_state σ t) as [-> | (tr & id' & Ht & Hs & ->)]; [exact He |].
  simpl. rewrite lookup_delete_ne; [exact He |].
  intros <-. apply Hne.
  destruct (Hent _ _ He) as (tr0 & Ht0 & Hn0 & _).
  destruct (Hid _ _ Ht) as [_ Hsid]. specialize (Hsid _ Hs).
  apply (Hinj _ _ _ _ Ht0 Ht). congruence.
Qed.

(** X19.  Once the transport of a session has signalled close, a POST on
    [/mcp] that names the session is rejected with [400], whatever its
    body: the client has to initiate a new session. *)
Theorem closed_session_rejected (isInitializeRequest : JsVal -> bool)
        (σ : State) (id : string) (e : SessionEntry)
        (tr : StreamableHTTPServerTransport) (req : Request) (uuid : string) :
  reachable isInitializeRequest σ ->
  sessions σ !! id = Some e -> transports σ !! transport e = Some tr ->
  sessionId tr <> None ->
  method req = POST -> path req = "/mcp" ->
  header "mcp-session-id" req = Some (HString id) ->
  let σ' := step isInitializeRequest σ (Closed (transport e)) in
  serve isInitializeRequest σ' req uuid = (σ', badRequest).
Proof.
  intros Hr He Ht Hs Hm Hp Hh σ'.
  pose proof (reachable_consistent _ _ Hr) as (Hent & Hinj & Hid & Hown).
  destruct (Hent _ _ He) as (tr0 & Ht0 & Hn0 & _).
  rewrite Ht in Ht0. inversion Ht0; subst tr0.
  destruct (Hid _ _ Ht) as [Hne Hsid].
  destruct (sessionId tr) as [id' |] eqn:Es; [| congruence].
  specialize (Hsid id' eq_refl). subst id'. rewrite Hn0 in *.
  assert (Hgone : sessions σ' !! id = None)
    by (apply (onclose_removes σ (transport e) tr id Ht); congruence).
  pose proof (Hown _ _ Ht) as Hplain. rewrite Hn0 in Hplain.
  rewrite (serve_post _ _ _ _ Hm Hp). unfold postHandler. rewrite Hh.
  cbn [sessionIdOf headerFalsy].
  rewrite (lookupSession_unknown _ _ Hgone Hplain).
  apply String.eqb_neq in Hne. now rewrite Hne.
Qed.

Lemma closed_session_rejected_witness :
  let σ' := step isInitialize oneSession (Closed 0%nat) in
  serve isInitialize σ' (withSession POST "/mcp" "3f2a-01") "77c0-02"
  = (σ', badRequest).
Proof.
  apply (closed_session_rejected isInitialize oneSession "3f2a-01"
           (mkEntry 0%nat 0%nat (Some []))
           (mkTransport (Some "3f2a-01") "3f2a-01" 0%nat [])
           (withSession POST "/mcp" "3f2a-01") "77c0-02" oneSession_reachable);
    try (vm_compute; reflexivity).
  discriminate.
Defined.

Lemma twoSessions_reachable : reachable isInitialize twoSessions.
Proof.
  set (post := mkRequest POST "/mcp" [] initializeBody).
  apply (reachable_step isInitialize
           (run_events isInitialize oneSession [Incoming post "77c0-02"])
           (Initialized 1%nat)).
  - apply (reachable_step isInitialize oneSession (Incoming post "77c0-02"));
      [apply oneSession_reachable |].
    split; [discriminate |]. split; [reflexivity |].
    intros tr Hin. vm_compute in Hin.
    apply list_elem_of_singleton in Hin. subst tr. discriminate.
  - eexists. split; vm_compute; reflexivity.
Qed.

Lemma onclose_spares_others_witness :
  sessions (onclose 1%nat twoSessions) !! "3f2a-01"
  = Some (mkEntry 0%nat 0%nat (Some []))
  /\ sessions twoSessions !! "77c0-02" = Some (mkEntry 1%nat 1%nat (Some []))
  /\ sessions (onclose 1%nat twoSessions) !! "77c0-02" = None.
Proof.
  split; [| split; vm_compute; reflexivity].
  apply (onclose_spares_others isInitialize twoSessions 1%nat "3f2a-01"
           (mkEntry 0%nat 0%nat (Some [])) twoSessions_reachable);
    [vm_compute; reflexivity | discriminate].
Defined.

(** X20.  A close signal that arrives before the transport has handled the
    initialize message removes nothing: the entry the POST handler filed for
    the new session stays in the registry. *)
Theorem close_before_initialization (isInitializeRequest : JsVal -> bool)
        (σ : State) (req : Request) (uuid : string) :
  method req = POST -> path req = "/mcp" ->
  header "mcp-session-id" req = None
  \/ header "mcp-session-id" req = Some (HString "") ->
  isInitializeRequest (body req) = true ->
  let n := length (transports σ) in
  let σ1 := step isInitializeRequest σ (Incoming req uuid) in
  step isInitializeRequest σ1 (Closed n) = σ1
  /\ sessions (step isInitializeRequest σ1 (Closed n)) !! uuid
     = Some (mkEntry n n None).
Proof.
  intros Hm Hp Hh Hi n σ1. subst σ1. simpl step.
  rewrite (serve_creates _ σ req uuid Hm Hp Hh Hi). fold n. simpl fst.
  assert (E : onclose n
                (mkState (<[uuid := mkEntry n n None]> (sessions σ))
                         (transports σ ++ [mkTransport None uuid n (headers req)])%list)
              = mkState (<[uuid := mkEntry n n None]> (sessions σ))
                        (transports σ ++ [mkTransport None uuid n (headers req)])%list).
  { unfold onclose. simpl transports. unfold n. rewrite lookup_snoc. reflexivity. }
  rewrite E. split; [reflexivity | apply lookup_insert_eq].
Qed.

Lemma close_before_initialization_witness :
  sessions (run_events isInitialize initial
              [Incoming (mkRequest POST "/mcp" [] initializeBody) "3f2a-01";
               Closed 0%nat]) !! "3f2a-01"
  = Some (mkEntry 0%nat 0%nat None).
Proof.
  exact (proj2 (close_before_initialization isInitialize initial
                  (mkRequest POST "/mcp" [] initializeBody) "3f2a-01"
                  eq_refl eq_refl (or_introl eq_refl) eq_refl)).
Defined.

(** X21.  In every state the server can reach: no entry is filed under the
    empty identifier, the transport of every entry exists, and entries
    under different identifiers have different transports. *)
Theorem registry_well_formed (isInitializeRequest : JsVal -> bool) (σ : State) :
  reachable isInitializeRequest σ ->
  sessions σ !! "" = None
  /\ (forall id e, sessions σ !! id = Some e -> is_Some (transports σ !! transport e))
  /\ (forall id1 id2 e1 e2,
         sessions σ !! id1 = Some e1 -> sessions σ !! id2 = Some e2 ->
         id1 <> id2 -> transport e1 <> transport e2).
Proof.
  intros Hr. pose proof (reachable_consistent _ _ Hr) as (Hent & Hinj & Hid & Hown).
  repeat split.
  - destruct (sessions σ !! "") as [e |] eqn:He; [| reflexivity].
    destruct (Hent _ _ He) as (tr & Ht & Hn & _).
    destruct (Hid _ _ Ht) as [Hne _]. congruence.
  - intros id e He. destruct (Hent _ _ He) as (tr & Ht & _). eauto.
  - intros id1 id2 e1 e2 H1 H2 Hne Heq.
    destruct (Hent _ _ H1) as (tr1 & Ht1 & Hn1 & _).
    destruct (Hent _ _ H2) as (tr2 & Ht2 & Hn2 & _).
    rewrite Heq in Ht1. congruence.
Qed.

Lemma registry_well_formed_witness :
  sessions oneSession !! "" = None.
Proof.
  exact (proj1 (registry_well_formed isInitialize oneSession oneSession_reachable)).
Defined.

(** X22.  When the transport of a new session handles the initialize
    message, the entry of the session is completed with the headers of the
    request that initiated it, and the transport's session id becomes the
    identifier the entry is filed under. *)
Theorem initialization_records_headers (isInitializeRequest : JsVal -> bool)
        (σ : State) (req : Request) (uuid : string) :
  method req = POST -> path req = "/mcp" ->
  header "mcp-session-id" req = None
  \/ header "mcp-session-id" req = Some (HString "") ->
  isInitializeRequest (body req) = true ->
  let n := length (transports σ) in
  let σ2 := run_events isInitializeRequest σ [Incoming req uuid; Initialized n] in
  sessions σ2 !! uuid = Some (mkEntry n n (Some (headers req)))
  /\ transports σ2 !! n = Some (mkTransport (Some uuid) uuid n (headers req)).
Proof.
  intros Hm Hp Hh Hi n σ2. subst σ2. unfold run_events. simpl fold_left.
  rewrite (serve_creates _ σ req uuid Hm Hp Hh Hi). fold n. simpl fst.
  rewrite (initialize_state _ n (mkTransport None uuid n (headers req)))
    by (simpl; unfold n; apply lookup_snoc).
  simpl. split; [apply lookup_insert_eq |].
  apply list_lookup_insert_eq. rewrite length_app. simpl. unfold n. lia.
Qed.

Lemma initialization_records_headers_witness :
  sessions (run_events isInitialize initial
              [Incoming (mkRequest POST "/mcp" [("accept", HString "text/event-stream")]
                                   initializeBody) "3f2a-01";
               Initialized 0%nat]) !! "3f2a-01"
  = Some (mkEntry 0%nat 0%nat (Some [("accept", HString "text/event-stream")])).
Proof.
  exact (proj1 (initialization_records_headers isInitialize initial
                  (mkRequest POST "/mcp" [("accept", HString "text/event-stream")]
                             initializeBody)
                  "3f2a-01" eq_refl eq_refl (or_introl eq_refl) eq_refl)).
Defined.

(** X23.  In every state the server can reach, a request is only ever
    handed to a transport that exists and that a session is registered
    with when the handler has run; and only a POST on [/mcp] (a trailing
    slash and the case of letters apart) is handed to a transport at all. *)
Theorem forwarded_to_registered (isInitializeRequest : JsVal -> bool)
        (σ σ' : State) (req : Request) (uuid : string) (t : TransportRef) :
  reachable isInitializeRequest σ ->
  serve isInitializeRequest σ req uuid = (σ', Forwarded t) ->
  method req = POST
  /\ (toLowerCase (path req) = "/mcp" \/ toLowerCase (path req) = "/mcp/")
  /\ is_Some (transports σ' !! t)
  /\ exists id e, sessions σ' !! id = Some e /\ transport e = t.
Proof.
  intros Hr Hs.
  pose proof (reachable_consistent _ _ Hr) as (Hent & _).
  destruct (routeMatches "/mcp" (path req)) eqn:Hp;
    [| rewrite serve_elsewhere in Hs by exact Hp; discriminate Hs].
  destruct (method req) eqn:Hm.
  - rewrite serve_mcp_get_delete in Hs by auto. discriminate Hs.
  - split; [reflexivity |]. split; [now apply routeMatches_mcp_iff |].
    rewrite (serve_post_route _ _ _ _ Hm Hp) in Hs. unfold postHandler in Hs.
    destruct (lookupSession σ _) as [e | |] eqn:Hl.
    + inversion Hs; subst. apply lookupSession_Found in Hl as (id & _ & _ & He).
      destruct (Hent _ _ He) as (tr & Ht & _). eauto.
    + discriminate Hs.
    + destruct (headerFalsy _ && isInitializeRequest _); [| discriminate Hs].
      inversion Hs; subst. simpl. split.
      * rewrite lookup_snoc. eauto.
      * eexists uuid, _. split; [apply lookup_insert_eq | reflexivity].
  - rewrite serve_put in Hs by exact Hm. discriminate Hs.
  - rewrite serve_mcp_get_delete in Hs by auto. discriminate Hs.
Qed.

Lemma forwarded_to_registered_witness :
  (toLowerCase "/MCP/" = "/mcp" \/ toLowerCase "/MCP/" = "/mcp/")
  /\ is_Some (transports twoSessions !! 1%nat)
  /\ exists id e, sessions twoSessions !! id = Some e /\ transport e = 1%nat.
Proof.
  exact (proj2 (forwarded_to_registered isInitialize twoSessions twoSessions
                  (withSession POST "/MCP/" "77c0-02") "9b1e-03" 1%nat
                  twoSessions_reachable ltac:(vm_compute; reflexivity))).
Defined.

(** X24.  A second close signal of the same transport changes nothing. *)
Theorem onclose_idempotent (σ : State) (t : TransportRef) :
  onclose t (onclose t σ) = onclose t σ.
Proof.
  destruct (onclose_state σ t) as [E | (tr & id & Ht & Hs & E)]; rewrite E.
  - exact E.
  - unfold onclose. cbn [transports sessions]. rewrite Ht, Hs.
    unfold lookupSession. cbn [sessions]. rewrite lookup_delete_eq.
    destruct (id =? "")%string; [reflexivity |].
    destruct (inheritedMember id); [| reflexivity].
    cbn [sessions transports]. now rewrite delete_delete_eq.
Qed.

(** ** The binding of a session *)




